(** * Vertex AI provider adapters of claude-task-master

    A shallow embedding of [vertex-claude.js] (the hand-written REST client
    for Claude models on Vertex AI, "Adapter A") and of the text entry point
    of [vertex.js] (the SDK-backed client, "Adapter B"), together with the
    part of the JavaScript runtime the two files rely on: strings of UTF-16
    code units, [String.prototype.trim], [String.prototype.split],
    [JSON.parse], [JSON.stringify], property reads and truthiness. *)

From Stdlib Require Import ZArith NArith Ascii String List Bool Lia.
Import ListNotations.

Local Open Scope N_scope.
Set Warnings "-register-all".

(** ** The JavaScript runtime *)

Module JS.

(** *** Strings *)

(** A JavaScript string is a sequence of UTF-16 code units. *)
Definition code_unit := N.
Definition jsstring := list code_unit.

(** [js "abc"] is the string whose code units are the character codes of a
    Rocq string literal (one code unit per character, all below 256). *)
Definition js (s : string) : jsstring :=
  map N_of_ascii (list_ascii_of_string s).

Definition LF : code_unit := 10.
Definition QUOTE : code_unit := 34.
Definition BACKSLASH : code_unit := 92.

(** ["s"] with its double quotes, for writing JSON text. *)
Definition q (s : jsstring) : jsstring := QUOTE :: s ++ [QUOTE].

Fixpoint str_eqb (a b : jsstring) : bool :=
  match a, b with
  | [], [] => true
  | x :: a', y :: b' => (x =? y) && str_eqb a' b'
  | _, _ => false
  end.

(** WhiteSpace and LineTerminator of ECMA-262, the code units that
    [String.prototype.trim] strips. *)
Definition is_js_space (c : code_unit) : bool :=
  (9 <=? c) && (c <=? 13)
  || (c =? 32) || (c =? 160) || (c =? 5760)
  || (8192 <=? c) && (c <=? 8202)
  || (c =? 8232) || (c =? 8233) || (c =? 8239) || (c =? 8287)
  || (c =? 12288) || (c =? 65279).

Fixpoint trimStart (s : jsstring) : jsstring :=
  match s with
  | c :: s' => if is_js_space c then trimStart s' else s
  | [] => []
  end.

Definition trimEnd (s : jsstring) : jsstring := rev (trimStart (rev s)).

(** [s.trim()] *)
Definition trim (s : jsstring) : jsstring := trimEnd (trimStart s).

(** [s.split(sep)] for a separator of one code unit: the pieces between the
    separators, in order; a string without separator is its only piece. *)
Fixpoint split (sep : code_unit) (s : jsstring) : list jsstring :=
  match s with
  | [] => [[]]
  | c :: s' =>
      if c =? sep then [] :: split sep s'
      else match split sep s' with
           | piece :: pieces => (c :: piece) :: pieces
           | [] => [[c]]
           end
  end.

(** [pieces.join(sep)] *)
Fixpoint join (sep : jsstring) (pieces : list jsstring) : jsstring :=
  match pieces with
  | [] => []
  | [p] => p
  | p :: rest => p ++ sep ++ join sep rest
  end.

(** *** Numbers *)

(** A number is kept as the exact decimal [mant * 10 ^ expo].  That is the
    value of a JSON number literal before the runtime rounds it to binary64;
    the two agree on every literal of at most 15 significant digits within
    the binary64 range, which is the range this model covers.  The sign of
    zero is not kept: no operation used by the adapters observes it. *)
Record number := Num { mant : Z; expo : Z }.

Definition digit_char (d : N) : code_unit := 48 + d.

Fixpoint uint_digits (u : Decimal.uint) : list N :=
  match u with
  | Decimal.Nil => []
  | Decimal.D0 u' => 0 :: uint_digits u'
  | Decimal.D1 u' => 1 :: uint_digits u'
  | Decimal.D2 u' => 2 :: uint_digits u'
  | Decimal.D3 u' => 3 :: uint_digits u'
  | Decimal.D4 u' => 4 :: uint_digits u'
  | Decimal.D5 u' => 5 :: uint_digits u'
  | Decimal.D6 u' => 6 :: uint_digits u'
  | Decimal.D7 u' => 7 :: uint_digits u'
  | Decimal.D8 u' => 8 :: uint_digits u'
  | Decimal.D9 u' => 9 :: uint_digits u'
  end.

(** Decimal digits of [n], most significant first; [0] has the digit 0. *)
Definition digits_of_N (n : N) : list N := uint_digits (N.to_uint n).

Definition N_of_digits (ds : list N) : N :=
  fold_left (fun acc d => acc * 10 + d) ds 0.

Definition string_of_N (n : N) : jsstring := map digit_char (digits_of_N n).

(** [fuel] times: a mantissa that ends in 0 loses that digit to the
    exponent. *)
Fixpoint strip_zeros (fuel : nat) (m e : Z) : number :=
  match fuel with
  | O => Num m e
  | S fuel' =>
      if (m mod 10 =? 0)%Z then strip_zeros fuel' (m / 10) (e + 1) else Num m e
  end.

(** The canonical representative of [m * 10 ^ e]: a mantissa that does not
    end in 0, and [0 * 10 ^ 0] for zero.  A mantissa has fewer decimal
    digits than binary ones, which bounds the number of digits to strip. *)
Definition normalize (m e : Z) : number :=
  if (m =? 0)%Z then Num 0 0
  else strip_zeros (S (Z.to_nat (Z.log2 (Z.abs m)))) m e.

Definition number_of_Z (z : Z) : number := normalize z 0.
Definition number_of_N (n : N) : number := normalize (Z.of_N n) 0.

Definition is_zero (x : number) : bool := (mant x =? 0)%Z.

Definition zeros (n : Z) : jsstring := repeat (digit_char 0) (Z.to_nat n).

(** Number::toString of ECMA-262 (radix 10), on the exact decimal: with [k]
    the number of significant digits and [n] the position of the decimal
    point, plain digits for [k <= n <= 21], a decimal point inside for
    [0 < n <= 21], leading ["0."] for [-6 < n <= 0], exponent notation
    otherwise. *)
Definition number_to_string (x : number) : jsstring :=
  let x := normalize (mant x) (expo x) in
  if is_zero x then js "0"
  else
    let sign := if (mant x <? 0)%Z then js "-" else [] in
    let ds := map digit_char (digits_of_N (Z.abs_N (mant x))) in
    let k := Z.of_nat (length ds) in
    let n := (k + expo x)%Z in
    let body :=
      if ((k <=? n) && (n <=? 21))%Z then ds ++ zeros (n - k)
      else if ((0 <? n) && (n <=? 21))%Z then
        firstn (Z.to_nat n) ds ++ js "." ++ skipn (Z.to_nat n) ds
      else if ((-6 <? n) && (n <=? 0))%Z then js "0." ++ zeros (- n) ++ ds
      else
        let e := (n - 1)%Z in
        let es := (if (e <? 0)%Z then js "-" else js "+")
                  ++ string_of_N (Z.abs_N e) in
        match ds with
        | [d] => [d] ++ js "e" ++ es
        | d :: more => [d] ++ js "." ++ more ++ js "e" ++ es
        | [] => []
        end
    in sign ++ body.

(** *** Values *)

(** The values that occur in the adapters: what [JSON.parse] builds, and
    [undefined] for a property that is not there.  An object keeps its own
    properties in the order the runtime enumerates them. *)
Inductive value :=
| VUndefined
| VNull
| VBool (b : bool)
| VNumber (n : number)
| VString (s : jsstring)
| VArray (elems : list value)
| VObject (props : list (jsstring * value)).

(** ToBoolean *)
Definition truthy (v : value) : bool :=
  match v with
  | VUndefined | VNull => false
  | VBool b => b
  | VNumber n => negb (is_zero n)
  | VString s => match s with [] => false | _ => true end
  | VArray _ | VObject _ => true
  end.

Definition Array_isArray (v : value) : bool :=
  match v with VArray _ => true | _ => false end.

(** *** Errors and completions *)

Record error := Error { name : jsstring; message : jsstring }.

Definition mkError (msg : jsstring) : error := Error (js "Error") msg.

Inductive completion (A : Type) :=
| Normal (a : A)
| Throw (e : error).
Arguments Normal {A} a.
Arguments Throw {A} e.

Definition cbind {A B} (c : completion A) (f : A -> completion B)
  : completion B :=
  match c with
  | Normal a => f a
  | Throw e => Throw e
  end.

(** *** Property reads *)

Definition is_digit (c : code_unit) : bool := (48 <=? c) && (c <=? 57).

(** An array index: the canonical decimal form of an integer below
    [2^32 - 1]. *)
Definition array_index (k : jsstring) : option N :=
  match k with
  | [] => None
  | c :: rest =>
      if forallb is_digit k && negb ((c =? 48) && negb (length rest =? 0)%nat)
      then
        let i := N_of_digits (map (fun d => d - 48) k) in
        if i <? 4294967295 then Some i else None
      else None
  end.

Fixpoint lookup (k : jsstring) (props : list (jsstring * value)) : value :=
  match props with
  | [] => VUndefined
  | (k', v) :: rest => if str_eqb k k' then v else lookup k rest
  end.

Definition read_null_error (what k : jsstring) : error :=
  Error (js "TypeError")
        (js "Cannot read properties of " ++ what ++ js " (reading '" ++ k
           ++ js "')").

(** [v.k] and [v[k]]: the own properties of objects, the elements and
    [length] of arrays and strings; a read on [null] or [undefined] throws a
    TypeError.  Inherited properties are not modelled: none of the names the
    adapters read ([delta], [content], [message], [text], [length], [0]) is
    inherited by a parsed JSON value from a prototype, except [length]. *)
Definition get (v : value) (k : jsstring) : completion value :=
  match v with
  | VUndefined => Throw (read_null_error (js "undefined") k)
  | VNull => Throw (read_null_error (js "null") k)
  | VBool _ | VNumber _ => Normal VUndefined
  | VString s =>
      if str_eqb k (js "length")
      then Normal (VNumber (number_of_N (N.of_nat (length s))))
      else match array_index k with
           | Some i => match nth_error s (N.to_nat i) with
                       | Some c => Normal (VString [c])
                       | None => Normal VUndefined
                       end
           | None => Normal VUndefined
           end
  | VArray elems =>
      if str_eqb k (js "length")
      then Normal (VNumber (number_of_N (N.of_nat (length elems))))
      else match array_index k with
           | Some i => Normal (nth (N.to_nat i) elems VUndefined)
           | None => Normal VUndefined
           end
  | VObject props => Normal (lookup k props)
  end.

(** [x > 0] for a number [x]. *)
Definition gt_zero (v : value) : bool :=
  match v with
  | VNumber n => (0 <? mant n)%Z
  | _ => false
  end.

(** *** JSON.parse *)

(** JSON white space: tab, line feed, carriage return, space. *)
Definition is_json_ws (c : code_unit) : bool :=
  (c =? 9) || (c =? 10) || (c =? 13) || (c =? 32).

Fixpoint skip_ws (s : jsstring) : jsstring :=
  match s with
  | c :: s' => if is_json_ws c then skip_ws s' else s
  | [] => []
  end.

Fixpoint strip_prefix (p s : jsstring) : option jsstring :=
  match p, s with
  | [], _ => Some s
  | x :: p', y :: s' => if x =? y then strip_prefix p' s' else None
  | _ :: _, [] => None
  end.

Definition hex_value (c : code_unit) : option N :=
  if is_digit c then Some (c - 48)
  else if (97 <=? c) && (c <=? 102) then Some (c - 87)
  else if (65 <=? c) && (c <=? 70) then Some (c - 55)
  else None.

Definition hex4 (a b c d : code_unit) : option code_unit :=
  match hex_value a, hex_value b, hex_value c, hex_value d with
  | Some x, Some y, Some z, Some w => Some (((x * 16 + y) * 16 + z) * 16 + w)
  | _, _, _, _ => None
  end.

(** The character a one-letter escape stands for. *)
Definition unescape (c : code_unit) : option code_unit :=
  if (c =? 34) || (c =? 92) || (c =? 47) then Some c
  else if c =? 98 then Some 8
  else if c =? 102 then Some 12
  else if c =? 110 then Some 10
  else if c =? 114 then Some 13
  else if c =? 116 then Some 9
  else None.

(** The characters of a string literal after its opening quote, decoded, and
    what follows the closing quote. *)
Fixpoint parse_string_chars (s : jsstring) : option (jsstring * jsstring) :=
  match s with
  | [] => None
  | c :: r =>
      if c =? QUOTE then Some ([], r)
      else if c =? BACKSLASH then
        match r with
        | [] => None
        | e :: r' =>
            if e =? 117 then
              match r' with
              | h1 :: h2 :: h3 :: h4 :: r'' =>
                  match hex4 h1 h2 h3 h4, parse_string_chars r'' with
                  | Some u, Some (cs, rest) => Some (u :: cs, rest)
                  | _, _ => None
                  end
              | _ => None
              end
            else
              match unescape e, parse_string_chars r' with
              | Some u, Some (cs, rest) => Some (u :: cs, rest)
              | _, _ => None
              end
        end
      else if c <? 32 then None
      else match parse_string_chars r with
           | Some (cs, rest) => Some (c :: cs, rest)
           | None => None
           end
  end.

Fixpoint take_digits (s : jsstring) : list N * jsstring :=
  match s with
  | c :: r =>
      if is_digit c
      then let (ds, rest) := take_digits r in ((c - 48) :: ds, rest)
      else ([], s)
  | [] => ([], [])
  end.

Definition parse_int_part (s : jsstring) : option (list N * jsstring) :=
  match s with
  | c :: r =>
      if c =? 48 then Some ([0], r)
      else if is_digit c then Some (take_digits s)
      else None
  | [] => None
  end.

Definition parse_frac_part (s : jsstring) : option (list N * jsstring) :=
  match s with
  | c :: r =>
      if c =? 46 then
        match take_digits r with
        | ([], _) => None
        | (ds, rest) => Some (ds, rest)
        end
      else Some ([], s)
  | [] => Some ([], s)
  end.

Definition parse_exp_part (s : jsstring) : option (Z * jsstring) :=
  match s with
  | c :: r =>
      if (c =? 101) || (c =? 69) then
        let (sign, r') :=
          match r with
          | x :: t => if x =? 43 then (1%Z, t)
                      else if x =? 45 then ((-1)%Z, t) else (1%Z, r)
          | [] => (1%Z, r)
          end in
        match take_digits r' with
        | ([], _) => None
        | (ds, rest) => Some ((sign * Z.of_N (N_of_digits ds))%Z, rest)
        end
      else Some (0%Z, s)
  | [] => Some (0%Z, s)
  end.

(** A number literal: [-? int frac? exp?]. *)
Definition parse_number (s : jsstring) : option (number * jsstring) :=
  let (neg, s1) :=
    match s with
    | c :: r => if c =? 45 then (true, r) else (false, s)
    | [] => (false, s)
    end in
  match parse_int_part s1 with
  | None => None
  | Some (ids, s2) =>
      match parse_frac_part s2 with
      | None => None
      | Some (fds, s3) =>
          match parse_exp_part s3 with
          | None => None
          | Some (e, s4) =>
              let m := Z.of_N (N_of_digits (ids ++ fds)) in
              Some (normalize (if neg then (- m)%Z else m)
                              (e - Z.of_nat (length fds))%Z, s4)
          end
      end
  end.

(** The order in which an object enumerates its own keys: array indices
    first, ascending, then the other keys in the order of their creation. *)
Definition key_before (k k' : jsstring) : bool :=
  match array_index k, array_index k' with
  | Some i, Some j => i <? j
  | Some _, None => true
  | None, _ => false
  end.

(** CreateDataProperty on a parsed object: a key that is already there keeps
    its place and takes the new value. *)
Fixpoint obj_set (k : jsstring) (v : value) (props : list (jsstring * value))
  : list (jsstring * value) :=
  match props with
  | [] => [(k, v)]
  | (k', v') :: rest =>
      if str_eqb k k' then (k, v) :: rest
      else if key_before k k' then (k, v) :: (k', v') :: rest
      else (k', v') :: obj_set k v rest
  end.

Inductive parse_result :=
| Parsed (v : value) (rest : jsstring)
| SyntaxError
| OutOfFuel.

(** Recursive descent over the JSON grammar.  [parse_value] reads one value,
    [parse_elements] the elements of an array up to its closing bracket,
    [parse_members] the members of an object up to its closing brace; the
    fuel bounds the number of nested calls. *)
Fixpoint parse_value (fuel : nat) (s : jsstring) {struct fuel}
  : parse_result :=
  match fuel with
  | O => OutOfFuel
  | S fuel' =>
      match skip_ws s with
      | [] => SyntaxError
      | c :: r =>
          if c =? 123 then
            match skip_ws r with
            | [] => SyntaxError
            | c' :: r' =>
                if c' =? 125 then Parsed (VObject []) r'
                else parse_members fuel' [] (c' :: r')
            end
          else if c =? 91 then
            match skip_ws r with
            | [] => SyntaxError
            | c' :: r' =>
                if c' =? 93 then Parsed (VArray []) r'
                else parse_elements fuel' [] (c' :: r')
            end
          else if c =? QUOTE then
            match parse_string_chars r with
            | Some (cs, rest) => Parsed (VString cs) rest
            | None => SyntaxError
            end
          else if (c =? 45) || is_digit c then
            match parse_number (c :: r) with
            | Some (n, rest) => Parsed (VNumber n) rest
            | None => SyntaxError
            end
          else
            match strip_prefix (js "true") (c :: r) with
            | Some rest => Parsed (VBool true) rest
            | None =>
            match strip_prefix (js "false") (c :: r) with
            | Some rest => Parsed (VBool false) rest
            | None =>
            match strip_prefix (js "null") (c :: r) with
            | Some rest => Parsed VNull rest
            | None => SyntaxError
            end end end
      end
  end

with parse_elements (fuel : nat) (acc : list value) (s : jsstring)
  {struct fuel} : parse_result :=
  match fuel with
  | O => OutOfFuel
  | S fuel' =>
      match parse_value fuel' s with
      | Parsed v rest =>
          match skip_ws rest with
          | [] => SyntaxError
          | c :: r =>
              if c =? 44 then parse_elements fuel' (acc ++ [v]) r
              else if c =? 93 then Parsed (VArray (acc ++ [v])) r
              else SyntaxError
          end
      | failure => failure
      end
  end

with parse_members (fuel : nat) (acc : list (jsstring * value))
  (s : jsstring) {struct fuel} : parse_result :=
  match fuel with
  | O => OutOfFuel
  | S fuel' =>
      match skip_ws s with
      | [] => SyntaxError
      | c :: r =>
          if c =? QUOTE then
            match parse_string_chars r with
            | None => SyntaxError
            | Some (k, rest) =>
                match skip_ws rest with
                | [] => SyntaxError
                | c2 :: r2 =>
                    if c2 =? 58 then
                      match parse_value fuel' r2 with
                      | Parsed v rest2 =>
                          match skip_ws rest2 with
                          | [] => SyntaxError
                          | c3 :: r3 =>
                              if c3 =? 44
                              then parse_members fuel' (obj_set k v acc) r3
                              else if c3 =? 125
                              then Parsed (VObject (obj_set k v acc)) r3
                              else SyntaxError
                          end
                      | failure => failure
                      end
                    else SyntaxError
                end
            end
          else SyntaxError
      end
  end.

(** [JSON.parse(text)]: [None] stands for the SyntaxError it throws.  The
    text must be one value, with white space at most around it. *)
Definition JSON_parse (text : jsstring) : option value :=
  match parse_value (2 * length text + 1) text with
  | Parsed v rest => match skip_ws rest with [] => Some v | _ => None end
  | _ => None
  end.

(** *** JSON.stringify *)

Definition hex_digit (d : N) : code_unit :=
  if d <? 10 then 48 + d else 87 + d.

(** [\uXXXX], lower case. *)
Definition unicode_escape (c : code_unit) : jsstring :=
  js "\u" ++ [hex_digit (c / 4096 mod 16); hex_digit (c / 256 mod 16);
              hex_digit (c / 16 mod 16); hex_digit (c mod 16)].

Definition is_high_surrogate (c : code_unit) : bool :=
  (55296 <=? c) && (c <=? 56319).
Definition is_low_surrogate (c : code_unit) : bool :=
  (56320 <=? c) && (c <=? 57343).

(** The body of QuoteJSONString: quote, backslash and control characters
    escaped, a surrogate that is not part of a pair escaped, the rest kept. *)
Fixpoint quote_chars (s : jsstring) : jsstring :=
  match s with
  | [] => []
  | c :: r =>
      if c =? QUOTE then js "\" ++ [QUOTE] ++ quote_chars r
      else if c =? BACKSLASH then js "\\" ++ quote_chars r
      else if c =? 8 then js "\b" ++ quote_chars r
      else if c =? 9 then js "\t" ++ quote_chars r
      else if c =? 10 then js "\n" ++ quote_chars r
      else if c =? 12 then js "\f" ++ quote_chars r
      else if c =? 13 then js "\r" ++ quote_chars r
      else if c <? 32 then unicode_escape c ++ quote_chars r
      else if is_high_surrogate c then
        match r with
        | c' :: r' =>
            if is_low_surrogate c' then c :: c' :: quote_chars r'
            else unicode_escape c ++ quote_chars r
        | [] => unicode_escape c
        end
      else if is_low_surrogate c then unicode_escape c ++ quote_chars r
      else c :: quote_chars r
  end.

Definition quote (s : jsstring) : jsstring := q (quote_chars s).

(** SerializeJSONProperty without indentation: [None] is the [undefined] it
    gives for [undefined]; an [undefined] element of an array is written
    [null], an [undefined] property of an object is left out. *)
Fixpoint serialize (v : value) : option jsstring :=
  match v with
  | VUndefined => None
  | VNull => Some (js "null")
  | VBool true => Some (js "true")
  | VBool false => Some (js "false")
  | VNumber n => Some (number_to_string n)
  | VString s => Some (quote s)
  | VArray elems =>
      Some (js "["
            ++ join (js ",")
                 (map (fun e => match serialize e with
                                | Some t => t
                                | None => js "null"
                                end) elems)
            ++ js "]")
  | VObject props =>
      Some (js "{"
            ++ join (js ",")
                 (flat_map (fun p => match serialize (snd p) with
                                     | Some t => [quote (fst p) ++ js ":" ++ t]
                                     | None => []
                                     end) props)
            ++ js "}")
  end.

(** [JSON.stringify(v)] *)
Definition JSON_stringify (v : value) : option jsstring := serialize v.

(** *** The regular expression of the text fallback *)

(** The adapter searches the serialized object with a pattern that reads:
    the key [text] in double quotes, a colon, a double quote, then a group
    capturing one or more characters other than a double quote, then a
    double quote. *)

Definition text_pattern_head : jsstring := q (js "text") ++ js ":" ++ [QUOTE].

Fixpoint take_non_quote (s : jsstring) : jsstring * jsstring :=
  match s with
  | c :: r =>
      if c =? QUOTE then ([], s)
      else let (run, rest) := take_non_quote r in (c :: run, rest)
  | [] => ([], [])
  end.

(** A match that starts at the head of [s]: the literal head of the
    pattern, then the longest run of characters other than a quote, which must not be empty
    and must end at a quote.  (A shorter run never ends at a quote, so the
    longest one is the only candidate.)  The result is the whole match and
    the captured run. *)
Definition match_here (s : jsstring) : option (jsstring * jsstring) :=
  match strip_prefix text_pattern_head s with
  | None => None
  | Some r =>
      match take_non_quote r with
      | (c :: run, _ :: _) =>
          Some (text_pattern_head ++ (c :: run) ++ [QUOTE], c :: run)
      | _ => None
      end
  end.

(** [s.match(pattern)]: the leftmost match, [None] for [null]. *)
Fixpoint match_text_regex (s : jsstring) : option (jsstring * jsstring) :=
  match match_here s with
  | Some m => Some m
  | None => match s with
            | [] => None
            | _ :: s' => match_text_regex s'
            end
  end.

(** *** ToString *)

(** ToString of ECMA-262 on the values of this model: a string is itself, a
    number is written by Number::toString, an array is its elements joined
    by commas, with [null] and [undefined] elements written as nothing, and
    any other object is the text [[object Object]]. *)
Fixpoint ToString (v : value) : jsstring :=
  match v with
  | VUndefined => js "undefined"
  | VNull => js "null"
  | VBool true => js "true"
  | VBool false => js "false"
  | VNumber n => number_to_string n
  | VString s => s
  | VArray elems =>
      join (js ",")
           (map (fun e => match e with
                          | VUndefined | VNull => []
                          | _ => ToString e
                          end) elems)
  | VObject _ => js "[object Object]"
  end.

End JS.

Import JS.

(** ** The host: environment, subprocesses, network, logger *)

Module Host.

(** What [child_process.exec] observes of a finished subprocess. *)
Record ExecOutcome := {
  exit_code : Z;
  stdout : jsstring;
  stderr : jsstring
}.

Record Request := {
  url : jsstring;
  method : jsstring;
  headers : list (jsstring * jsstring);
  body : option jsstring
}.

Record Response := {
  status : N;
  responseBody : jsstring
}.

(** [response.ok] *)
Definition ok (r : Response) : bool :=
  (200 <=? status r) && (status r <=? 299).

Inductive FetchOutcome :=
| Responded (r : Response)
| Rejected (e : error).

(** A message of the conversation: [{ role, content }]. *)
Record Message := {
  role : jsstring;
  content : jsstring
}.

(** The argument of the SDK's [generateText], with the provider settings the
    model handle was created from. *)
Record SdkCall := {
  project : jsstring;
  sdkLocation : jsstring;
  model : jsstring;
  sdkMessages : list Message;
  sdkTemperature : number;
  maxOutputTokens : option Z
}.

(** Everything outside the adapters that a call depends on: [process.env],
    the outcome of running a command, the answer of the network to a request
    and the answer of the SDK to a call ([result.text], or the error it
    rejects with). *)
Record World := {
  env : jsstring -> option jsstring;
  exec : jsstring -> ExecOutcome;
  fetch : Request -> FetchOutcome;
  sdkGenerateText : SdkCall -> completion jsstring
}.

(** What a call does to the outside, in order. *)
Inductive event :=
| EvLog (level msg : jsstring)
| EvExec (cmd : jsstring)
| EvFetch (req : Request)
| EvSdk (call : SdkCall).

(** An asynchronous computation, run to its end: it reads the world, and
    either returns or throws, leaving a trace of events.  The [console.log]
    diagnostics of the adapters are not part of the trace. *)
Definition M (A : Type) : Type := World -> completion A * list event.

Definition ret {A} (a : A) : M A := fun _ => (Normal a, []).

Definition throw {A} (e : error) : M A := fun _ => (Throw e, []).

Definition bind {A B} (m : M A) (f : A -> M B) : M B :=
  fun w =>
    match m w with
    | (Normal a, t1) => let (r, t2) := f a w in (r, t1 ++ t2)
    | (Throw e, t1) => (Throw e, t1)
    end.

(** [try { m } catch (error) { handler }] *)
Definition try_catch {A} (m : M A) (handler : error -> M A) : M A :=
  fun w =>
    match m w with
    | (Normal a, t1) => (Normal a, t1)
    | (Throw e, t1) => let (r, t2) := handler e w in (r, t1 ++ t2)
    end.

Definition result {A} (r : completion A * list event) : completion A := fst r.
Definition trace {A} (r : completion A * list event) : list event := snd r.

(** [log(level, msg)] of the shared logging utility. *)
Definition log (level msg : jsstring) : M unit :=
  fun _ => (Normal tt, [EvLog level msg]).

(** [process.env[name]] *)
Definition getenv (name : jsstring) : M (option jsstring) :=
  fun w => (Normal (env w name), []).

(** The error a promisified [exec] rejects with when the command fails. *)
Definition exec_error (cmd : jsstring) (o : ExecOutcome) : error :=
  mkError (js "Command failed: " ++ cmd ++ [LF] ++ stderr o).

(** [await execAsync(cmd)]: resolves with the output when the command exits
    with code 0, rejects otherwise. *)
Definition execAsync (cmd : jsstring) : M ExecOutcome :=
  fun w =>
    let o := exec w cmd in
    if (exit_code o =? 0)%Z then (Normal o, [EvExec cmd])
    else (Throw (exec_error cmd o), [EvExec cmd]).

(** [await fetch(url, init)] *)
Definition doFetch (req : Request) : M Response :=
  fun w =>
    match fetch w req with
    | Responded r => (Normal r, [EvFetch req])
    | Rejected e => (Throw e, [EvFetch req])
    end.

(** [await generateText(call)] of the SDK, giving [result.text]. *)
Definition sdkCall (call : SdkCall) : M jsstring :=
  fun w => (sdkGenerateText w call, [EvSdk call]).

(** A value of [process.env] as the conditions of the adapters see it. *)
Definition env_truthy (o : option jsstring) : bool :=
  match o with
  | Some (_ :: _) => true
  | _ => false
  end.

(** A value of [process.env] inside a template literal. *)
Definition env_text (o : option jsstring) : jsstring :=
  match o with
  | Some s => s
  | None => js "undefined"
  end.

End Host.

Import Host.

Declare Scope host_scope.
Notation "x <- m ;; k" := (bind m (fun x => k))
  (at level 61, m at next level, right associativity) : host_scope.
Notation "m ;; k" := (bind m (fun _ => k))
  (at level 61, right associativity) : host_scope.
Local Open Scope host_scope.

(** ** Adapter A: vertex-claude.js *)

Module VertexClaude.

Definition DEFAULT_MODEL : jsstring := js "claude-3-7-sonnet@20250219".
Definition DEFAULT_TEMPERATURE : number := Num 2 (-1).

(** The parameter object of the three entry points.  A field that the
    caller leaves [undefined] is [None] and takes its default. *)
Record Params := {
  apiKey : option jsstring;
  modelId : option jsstring;
  temperature : option number;
  messages : list Message;
  maxTokens : option Z
}.

Definition or_default {A} (o : option A) (d : A) : A :=
  match o with Some a => a | None => d end.

(** *** getAccessToken *)

Definition getAccessToken : M jsstring :=
  try_catch
    (o <- execAsync (js "gcloud auth print-access-token") ;;
     ret (trim (stdout o)))
    (fun error =>
       throw (mkError (js "Failed to get access token: " ++ message error))).

(** *** Request construction *)

(** One turn of the loop over the messages: a system message replaces the
    system prompt, a user message is pushed on the user messages, any other
    message is passed over. *)
Definition collectMessage (st : jsstring * list jsstring) (m : Message)
  : jsstring * list jsstring :=
  let (systemPrompt, userMessages) := st in
  if str_eqb (role m) (js "system") then (content m, userMessages)
  else if str_eqb (role m) (js "user")
       then (systemPrompt, userMessages ++ [content m])
       else (systemPrompt, userMessages).

Definition collectMessages (msgs : list Message) : jsstring * list jsstring :=
  fold_left collectMessage msgs ([], []).

(** The text of the single content block. *)
Definition promptText (msgs : list Message) : jsstring :=
  let (systemPrompt, userMessages) := collectMessages msgs in
  let userPrompt := join [LF; LF] userMessages in
  (if truthy (VString systemPrompt) then systemPrompt ++ [LF; LF] else [])
  ++ userPrompt.

(** [Math.min(maxTokens, 64000)] *)
Definition clampTokens (maxTokens : Z) : Z := Z.min maxTokens 64000.

(** The payload object, as the object literal of the source writes it. *)
Definition payload (p : Params) : value :=
  VObject
    [ (js "anthropic_version", VString (js "vertex-2023-10-16"));
      (js "messages",
       VArray
         [ VObject
             [ (js "role", VString (js "user"));
               (js "content",
                VArray
                  [ VObject
                      [ (js "type", VString (js "text"));
                        (js "text", VString (promptText (messages p))) ] ]) ] ]);
      (js "max_tokens",
       VNumber (number_of_Z (clampTokens (or_default (maxTokens p) 1024%Z))));
      (js "temperature",
       VNumber (or_default (temperature p) DEFAULT_TEMPERATURE));
      (js "top_p", VNumber (Num 95 (-2)));
      (js "top_k", VNumber (number_of_Z 40)) ].

Definition endpoint (location projectId model : jsstring) : jsstring :=
  js "https://" ++ location ++ js "-aiplatform.googleapis.com/v1/projects/"
  ++ projectId ++ js "/locations/" ++ location
  ++ js "/publishers/anthropic/models/" ++ model ++ js ":streamRawPredict".

Definition request (location projectId accessToken : jsstring) (p : Params)
  : Request :=
  {| url := endpoint location projectId (or_default (modelId p) DEFAULT_MODEL);
     method := js "POST";
     headers :=
       [ (js "Authorization", js "Bearer " ++ accessToken);
         (js "Content-Type", js "application/json; charset=utf-8") ];
     body := JSON_stringify (payload p) |}.

(** *** Response extraction *)

(** JavaScript expressions that may throw. *)
Definition dot (e : completion value) (k : jsstring) : completion value :=
  cbind e (fun v => get v k).

Definition is_truthy (e : completion value) : completion bool :=
  cbind e (fun v => Normal (truthy v)).

Definition isArray (e : completion value) : completion bool :=
  cbind e (fun v => Normal (Array_isArray v)).

Definition positive (e : completion value) : completion bool :=
  cbind e (fun v => Normal (gt_zero v)).

(** [a && b] as a condition: [b] is evaluated only when [a] holds. *)
Definition and_also (a b : completion bool) : completion bool :=
  cbind a (fun x => if x then b else Normal false).

(** [if (c) return t; else e] *)
Definition if_return {A} (c : completion bool) (t e : completion A)
  : completion A :=
  cbind c (fun x => if x then t else e).

Declare Scope js_scope.
Notation "e # k" := (dot e (js k)) (at level 25, left associativity)
  : js_scope.
Notation "a &&& b" := (and_also a b) (at level 40, left associativity)
  : js_scope.
Local Open Scope js_scope.

(** One turn of the loop over the lines: a line that is not blank and parses
    replaces the last valid JSON; a blank line, or one that does not parse,
    leaves it. *)
Definition scanLine (lastValidJson : value) (line : jsstring) : value :=
  if truthy (VString (trim line)) then
    match JSON_parse line with
    | Some jsonData => jsonData
    | None => lastValidJson
    end
  else lastValidJson.

Definition responseLines (responseText : jsstring) : list jsstring :=
  split LF (trim responseText).

Definition lastValidJsonOf (responseText : jsstring) : value :=
  fold_left scanLine (responseLines responseText) VNull.

(** The fallback of the chain: the first capture of the text pattern in the
    serialized object, else the serialized object. *)
Definition extractFallback (lastValidJson : value) : completion value :=
  match JSON_stringify lastValidJson with
  | None => Throw (read_null_error (js "undefined") (js "match"))
  | Some jsonStr =>
      match match_text_regex jsonStr with
      | Some (_, group1) =>
          if truthy (VString group1) then Normal (VString group1)
          else Normal (VString jsonStr)
      | None => Normal (VString jsonStr)
      end
  end.

(** The chain of conditions on a truthy last valid JSON. *)
Definition extractFrom (lastValidJson : value) : completion value :=
  let L := Normal lastValidJson in
  if_return (is_truthy (L # "delta") &&& is_truthy (L # "delta" # "text"))
    (L # "delta" # "text")
  (if_return (is_truthy (L # "content")
              &&& is_truthy (L # "content" # "text"))
    (L # "content" # "text")
  (if_return (is_truthy (L # "content") &&& isArray (L # "content")
              &&& positive (L # "content" # "length")
              &&& is_truthy (L # "content" # "0" # "text"))
    (L # "content" # "0" # "text")
  (if_return (is_truthy (L # "message")
              &&& is_truthy (L # "message" # "content"))
    (L # "message" # "content")
  (if_return (is_truthy (L # "message")
              &&& is_truthy (L # "message" # "content")
              &&& isArray (L # "message" # "content")
              &&& positive (L # "message" # "content" # "length")
              &&& is_truthy (L # "message" # "content" # "0" # "text"))
    (L # "message" # "content" # "0" # "text")
  (if_return (is_truthy (L # "text"))
    (L # "text")
    (extractFallback lastValidJson)))))).

(** The body of the inner [try]. *)
Definition tryExtract (responseText : jsstring) : completion value :=
  let lastValidJson := lastValidJsonOf responseText in
  if truthy lastValidJson then extractFrom lastValidJson
  else Normal (VString responseText).

(** The inner [try] with its [catch]: whatever the body throws, the raw
    response is returned. *)
Definition extractResponse (responseText : jsstring) : value :=
  match tryExtract responseText with
  | Normal v => v
  | Throw _ => VString responseText
  end.

(** *** generateVertexClaudeText *)

(** The body of the outer [try]. *)
Definition callVertex (p : Params) : M value :=
  projectId <- getenv (js "VERTEX_PROJECT_ID") ;;
  location <- getenv (js "VERTEX_LOCATION") ;;
  if negb (env_truthy projectId) || negb (env_truthy location) then
    throw (mkError (js "VERTEX_PROJECT_ID and VERTEX_LOCATION environment variables must be set"))
  else
    accessToken <- getAccessToken ;;
    response <- doFetch (request (env_text location) (env_text projectId)
                                 accessToken p) ;;
    if negb (ok response) then
      throw (mkError (js "Vertex AI API error (" ++ string_of_N (status response)
                        ++ js "): " ++ responseBody response))
    else
      ret (extractResponse (responseBody response)).

Definition generateVertexClaudeText (p : Params) : M value :=
  let model := or_default (modelId p) DEFAULT_MODEL in
  log (js "info") (js "Generating text with Vertex AI Claude model: " ++ model) ;;
  try_catch (callVertex p)
    (fun error =>
       log (js "error")
           (js "Error generating text with Vertex AI Claude (" ++ model
              ++ js "): " ++ message error) ;;
       throw error).

(** *** streamVertexClaudeText *)

Definition streamVertexClaudeText (params : Params) : M value :=
  log (js "info")
      (js "Streaming not implemented for Vertex AI Claude models. Using non-streaming version.") ;;
  generateVertexClaudeText params.

(** *** generateVertexClaudeObject *)

Section ObjectGeneration.

(** The message of the SyntaxError that [JSON.parse] throws on a text it
    rejects; its wording is the engine's. *)
Variable syntaxMessage : jsstring -> jsstring.

(** [JSON.parse(x)] as an expression: the argument goes through ToString,
    a text that is not JSON throws. *)
Definition parseOrThrow (x : value) : M value :=
  match JSON_parse (ToString x) with
  | Some v => ret v
  | None => throw (Error (js "SyntaxError") (syntaxMessage (ToString x)))
  end.

Definition generateVertexClaudeObject (params : Params) : M value :=
  log (js "info")
      (js "Object generation not implemented for Vertex AI Claude models. Using text generation.") ;;
  text <- generateVertexClaudeText params ;;
  try_catch
    (parseOrThrow text)
    (fun error =>
       log (js "error")
           (js "Failed to parse Claude response as JSON: " ++ message error) ;;
       throw (mkError (js "Failed to generate object: " ++ message error))).

End ObjectGeneration.

End VertexClaude.

(** ** Adapter B: the text entry point of vertex.js *)

Module Vertex.

Definition DEFAULT_MODEL : jsstring := js "gemini-2.5-pro-preview-05-06".
Definition DEFAULT_TEMPERATURE : number := Num 2 (-1).

Record Params := {
  apiKey : option jsstring;
  modelId : option jsstring;
  temperature : option number;
  messages : list Message;
  maxTokens : option Z
}.

(** [process.env[name] || fallback] *)
Definition env_or (o : option jsstring) (fallback : jsstring) : jsstring :=
  if env_truthy o then env_text o else fallback.

Definition generateVertexText (p : Params) : M jsstring :=
  let model := VertexClaude.or_default (modelId p) DEFAULT_MODEL in
  log (js "info") (js "Generating text with Vertex AI model: " ++ model) ;;
  try_catch
    (projectId <- getenv (js "VERTEX_PROJECT_ID") ;;
     location <- getenv (js "VERTEX_LOCATION") ;;
     text <- sdkCall
       {| project := env_or projectId (js "default-project");
          sdkLocation := env_or location (js "us-central1");
          model := model;
          sdkMessages := messages p;
          sdkTemperature :=
            VertexClaude.or_default (temperature p) DEFAULT_TEMPERATURE;
          maxOutputTokens := maxTokens p |} ;;
     ret text)
    (fun error =>
       log (js "error")
           (js "Error generating text with Vertex AI (" ++ model ++ js "): "
              ++ message error) ;;
       throw error).

End Vertex.

(** ** The claims of the specification, in its own words *)

Module Spec.

Import VertexClaude.

(** The values of the lines that are not blank and parse, in the order of
    the lines. *)
Definition parsedValues (lines : list jsstring) : list value :=
  flat_map (fun line =>
              if truthy (VString (trim line)) then
                match JSON_parse line with
                | Some v => [v]
                | None => []
                end
              else []) lines.

(** The value at [v.k] when there is one, [undefined] otherwise (also where
    the read itself would throw). *)
Definition field (v : value) (k : string) : value :=
  match get v (js k) with
  | Normal x => x
  | Throw _ => VUndefined
  end.

Definition nonEmptyList (v : value) : bool :=
  match v with
  | VArray (_ :: _) => true
  | _ => false
  end.

Definition isText (v : value) : bool :=
  match v with
  | VString _ => true
  | _ => false
  end.

Definition when (c : bool) (v : value) : value :=
  if c then v else VUndefined.

(** Paths (a) to (f) of the specification, in its order.  A path is taken
    when it holds a truthy value, the test the adapter applies. *)
Definition pathA (v : value) : value := field (field v "delta") "text".
Definition pathB (v : value) : value := field (field v "content") "text".
Definition pathC (v : value) : value :=
  when (nonEmptyList (field v "content"))
       (field (field (field v "content") "0") "text").
Definition pathD (v : value) : value :=
  when (isText (field (field v "message") "content"))
       (field (field v "message") "content").
Definition pathE (v : value) : value :=
  when (nonEmptyList (field (field v "message") "content"))
       (field (field (field (field v "message") "content") "0") "text").
Definition pathF (v : value) : value := field v "text".

(** Paths (g) and (h): the first capture of the text pattern in the
    serialized object, else the serialized object. *)
Definition serializedFallback (v : value) : value :=
  match JSON_stringify v with
  | Some jsonStr =>
      match match_text_regex jsonStr with
      | Some (_, group1) => VString group1
      | None => VString jsonStr
      end
  | None => VUndefined
  end.

(** The extraction the specification describes: the first of (a) to (f)
    that is valid, else (g), else (h). *)
Definition priorityExtract (v : value) : value :=
  match find truthy [pathA v; pathB v; pathC v; pathD v; pathE v; pathF v] with
  | Some x => x
  | None => serializedFallback v
  end.

(** [null], or [undefined] (which no parsed JSON contains). *)
Definition nullish (v : value) : bool :=
  match v with
  | VUndefined | VNull => true
  | _ => false
  end.

(** A list whose first element is [null]. *)
Definition nullHead (v : value) : bool :=
  match v with
  | VArray (x :: _) => nullish x
  | _ => false
  end.

(** The extraction as amended: as above, except that a [content] list whose
    first element is [null] gives the raw response once (a) and (b) have
    failed, and that nothing is said ([None]) of a [message.content] that is
    truthy without being text. *)
Definition amendedExtract (responseText : jsstring) (v : value)
  : option value :=
  if truthy (pathA v) then Some (pathA v)
  else if truthy (pathB v) then Some (pathB v)
  else if nullHead (field v "content") then Some (VString responseText)
  else if truthy (pathC v) then Some (pathC v)
  else if truthy (field (field v "message") "content") then
         if isText (field (field v "message") "content")
         then Some (field (field v "message") "content")
         else None
  else if truthy (pathF v) then Some (pathF v)
  else Some (serializedFallback v).

(** The content of a system message that may not be there. *)
Definition or_empty (o : option jsstring) : jsstring :=
  match o with Some t => t | None => [] end.

(** The prompt text the specification describes: the content of the last
    system message and a blank line, left out when there is no system
    message, then the user messages joined by blank lines. *)
Definition lastSystem (msgs : list Message) : option jsstring :=
  fold_left (fun acc m =>
               if str_eqb (role m) (js "system") then Some (content m) else acc)
            msgs None.

Definition userContents (msgs : list Message) : list jsstring :=
  map content (filter (fun m => str_eqb (role m) (js "user")) msgs).

Definition promptText (msgs : list Message) : jsstring :=
  match lastSystem msgs with
  | Some system => system ++ [LF; LF]
  | None => []
  end ++ join [LF; LF] (userContents msgs).

(** The prompt text as amended: the system part is also left out when the
    content of the last system message is empty. *)
Definition amendedPromptText (msgs : list Message) : jsstring :=
  match lastSystem msgs with
  | Some (c :: system) => (c :: system) ++ [LF; LF]
  | _ => []
  end ++ join [LF; LF] (userContents msgs).

(** The subprocess gave usable output: it exited with code 0 and printed
    something other than white space. *)
Definition usableOutput (o : ExecOutcome) : Prop :=
  exit_code o = 0%Z /\ trim (stdout o) <> [].

End Spec.

(** ** Observations on traces *)

Module Trace.

(** The events of a trace that reach outside the process: commands run,
    requests sent, SDK calls made. *)
Definition isOutside (ev : event) : bool :=
  match ev with
  | EvLog _ _ => false
  | _ => true
  end.

Definition outside (t : list event) : list event := filter isOutside t.

(** The lines logged at level error. *)
Definition isErrorLog (ev : event) : bool :=
  match ev with
  | EvLog level _ => str_eqb level (js "error")
  | _ => false
  end.

Definition errorLogs (t : list event) : list event := filter isErrorLog t.

(** A string that neither starts nor ends with white space. *)
Definition trimmed (s : jsstring) : Prop := trim s = s.

End Trace.

(** ** Sample inputs *)

Module Samples.

(** [{"k":v}] for a JSON text [v]. *)
Definition object1 (k : string) (v : jsstring) : jsstring :=
  js "{" ++ q (js k) ++ js ":" ++ v ++ js "}".

Definition line_a : jsstring := object1 "text" (q (js "a")).
Definition line_b : jsstring := object1 "text" (q (js "b")).

(** Two chunks of a stream, one per line. *)
Definition twoDeltas : jsstring :=
  object1 "delta" (object1 "text" (q (js "4"))) ++ [LF]
  ++ object1 "delta" (object1 "text" (q (js "4!"))).

(** Valid lines with lines that are not JSON, and a blank one, among them. *)
Definition interspersed : jsstring :=
  line_a ++ [LF] ++ js "noise" ++ [LF] ++ line_b ++ [LF] ++ [LF] ++ js "oops".

Definition notJson : jsstring := js "not json".

(** A valid object on the first line, the number 0 on the last. *)
Definition endsWithZero : jsstring := line_a ++ [LF] ++ js "0".

(** A [content] list whose first element is [null], beside a [text]. *)
Definition nullContent : jsstring :=
  js "{" ++ q (js "content") ++ js ":[null]," ++ q (js "text") ++ js ":"
  ++ q (js "hi") ++ js "}".

Definition textBlock : jsstring :=
  js "{" ++ q (js "type") ++ js ":" ++ q (js "text") ++ js ","
  ++ q (js "text") ++ js ":" ++ q (js "hi") ++ js "}".

(** A [content] list of one text block. *)
Definition contentList : jsstring :=
  object1 "content" (js "[" ++ textBlock ++ js "]").

(** A message whose [content] is a list of one text block. *)
Definition messageList : jsstring :=
  object1 "message" (object1 "content" (js "[" ++ textBlock ++ js "]")).

(** The text block as a value. *)
Definition textBlockValue : value :=
  VObject [(js "type", VString (js "text")); (js "text", VString (js "hi"))].

(** A conversation whose system message is empty. *)
Definition emptySystem : list Message :=
  [ {| role := js "system"; content := [] |};
    {| role := js "user"; content := js "hi" |} ].

(** A system message, an earlier assistant turn and two user turns. *)
Definition conversation : list Message :=
  [ {| role := js "system"; content := js "Be terse." |};
    {| role := js "user"; content := js "2+2?" |};
    {| role := js "assistant"; content := js "4" |};
    {| role := js "user"; content := js "3+3?" |} ].

Definition params (msgs : list Message) (tokens : option Z)
  : VertexClaude.Params :=
  {| VertexClaude.apiKey := None;
     VertexClaude.modelId := None;
     VertexClaude.temperature := None;
     VertexClaude.messages := msgs;
     VertexClaude.maxTokens := tokens |}.

Definition configured (name : jsstring) : option jsstring :=
  if str_eqb name (js "VERTEX_PROJECT_ID") then Some (js "my-project")
  else if str_eqb name (js "VERTEX_LOCATION") then Some (js "us-central1")
  else None.

(** A world where everything answers: the variables are set, the credential
    command prints a token and the endpoint answers 200 with [answer]. *)
Definition answering (answer : jsstring) : World :=
  {| env := configured;
     exec := fun _ => {| exit_code := 0; stdout := js "ya29.token" ++ [LF];
                         stderr := [] |};
     fetch := fun _ => Responded {| status := 200; responseBody := answer |};
     sdkGenerateText := fun _ => Normal answer |}.

(** The same world without [VERTEX_LOCATION]. *)
Definition noLocation : World :=
  {| env := fun name =>
              if str_eqb name (js "VERTEX_LOCATION") then None
              else configured name;
     exec := exec (answering []);
     fetch := fetch (answering []);
     sdkGenerateText := sdkGenerateText (answering []) |}.

(** A world whose credential command exits with code 0 and prints nothing
    but a line feed. *)
Definition silentCredential : World :=
  {| env := configured;
     exec := fun _ => {| exit_code := 0; stdout := [LF]; stderr := [] |};
     fetch := fetch (answering []);
     sdkGenerateText := sdkGenerateText (answering []) |}.

(** A world whose credential command exits with code 1. *)
Definition failingCredential : World :=
  {| env := configured;
     exec := fun _ => {| exit_code := 1; stdout := [];
                         stderr := js "ERROR: not logged in" |};
     fetch := fetch (answering []);
     sdkGenerateText := sdkGenerateText (answering []) |}.

(** The answering world with another answer of the network. *)
Definition withFetch (outcome : FetchOutcome) : World :=
  {| env := configured;
     exec := exec (answering []);
     fetch := fun _ => outcome;
     sdkGenerateText := sdkGenerateText (answering []) |}.

(** The endpoint answers 429 with a quota message. *)
Definition overQuota : World :=
  withFetch (Responded {| status := 429; responseBody := js "Quota exceeded" |}).

(** The network is down. *)
Definition offline : World :=
  withFetch (Rejected (Error (js "TypeError") (js "fetch failed"))).

(** No variable is set, and the SDK fails. *)
Definition bare : World :=
  {| env := fun _ => None;
     exec := exec (answering []);
     fetch := fetch (answering []);
     sdkGenerateText := fun _ => Throw (mkError (js "model not found")) |}.

(** One object printed over three lines. *)
Definition prettyBody : jsstring :=
  js "{" ++ [LF] ++ q (js "a") ++ js ": 1" ++ [LF] ++ js "}".


(** A nested [text] whose value contains an escaped quote. *)
Definition quotedText : jsstring :=
  object1 "a" (object1 "text" (q (js "say \" ++ q (js "hi\")))).

(** A [text] that is a string, beside a [delta] whose text is a number. *)
Definition numberDelta : jsstring :=
  js "{" ++ q (js "delta") ++ js ":" ++ object1 "text" (js "5") ++ js ","
  ++ q (js "text") ++ js ":" ++ q (js "five") ++ js "}".

(** A wording for the syntax errors of the engine. *)
Definition engineMessage (text : jsstring) : jsstring :=
  js "Unexpected token in JSON: " ++ text.

Definition paramsB (tokens : option Z) : Vertex.Params :=
  {| Vertex.apiKey := None;
     Vertex.modelId := None;
     Vertex.temperature := None;
     Vertex.messages := conversation;
     Vertex.maxTokens := tokens |}.

End Samples.

(** ** Properties *)

Import VertexClaude.

(** *** Lists and strings *)

Lemma last_cons_default {A} (l : list A) (x d : A) :
  last (x :: l) d = last l x.
Proof.
  revert x d. induction l as [|y l IH]; intros x d; [reflexivity|].
  change (last (x :: y :: l) d) with (last (y :: l) d).
  rewrite (IH y d), (IH y x). reflexivity.
Qed.

Lemma trimStart_split (s : jsstring) :
  exists pre, s = pre ++ trimStart s /\ forallb is_js_space pre = true.
Proof.
  induction s as [|c s [pre [Hs Hpre]]].
  - exists []. split; reflexivity.
  - simpl. destruct (is_js_space c) eqn:Hc.
    + exists (c :: pre). split.
      * simpl. f_equal. exact Hs.
      * simpl. rewrite Hc, Hpre. reflexivity.
    + exists []. split; reflexivity.
Qed.

Lemma forallb_rev {A} (f : A -> bool) (l : list A) :
  forallb f (rev l) = forallb f l.
Proof.
  induction l as [|x l IH]; [reflexivity|].
  simpl. rewrite forallb_app, IH. simpl.
  rewrite andb_true_r. apply andb_comm.
Qed.

(** A string that trims to the empty string is made of white space. *)
Lemma trim_nil_spaces (s : jsstring) :
  trim s = [] -> forallb is_js_space s = true.
Proof.
  unfold trim, trimEnd. intros H.
  assert (Hr : trimStart (rev (trimStart s)) = []).
  { rewrite <- (rev_involutive (trimStart (rev (trimStart s)))), H.
    reflexivity. }
  destruct (trimStart_split (rev (trimStart s))) as [p1 [E1 F1]].
  rewrite Hr, app_nil_r in E1.
  destruct (trimStart_split s) as [p2 [E2 F2]].
  rewrite E2, forallb_app, F2. simpl.
  rewrite <- forallb_rev, E1. exact F1.
Qed.

(** *** The parser on blank lines *)

Lemma skip_ws_spaces (s : jsstring) :
  forallb is_js_space s = true ->
  match skip_ws s with
  | [] => True
  | c :: _ => is_js_space c = true /\ is_json_ws c = false
  end.
Proof.
  induction s as [|c s IH]; simpl; [trivial|].
  intros H. apply andb_true_iff in H. destruct H as [Hc Hs].
  destruct (is_json_ws c) eqn:Hw.
  - apply IH. exact Hs.
  - split; [exact Hc | exact Hw].
Qed.

Ltac not_a_space c :=
  match goal with
  | Hsp : is_js_space c = true |- context [c =? ?k] =>
      let E := fresh "E" in
      destruct (c =? k) eqn:E;
      [ apply N.eqb_eq in E; subst c; discriminate Hsp | ]
  end.

Lemma strip_prefix_head (k c : code_unit) (p r : jsstring) :
  (k =? c) = false -> strip_prefix (k :: p) (c :: r) = None.
Proof. intros H. simpl. rewrite H. reflexivity. Qed.

Lemma parse_value_spaces (fuel : nat) (s : jsstring) :
  forallb is_js_space s = true ->
  parse_value (S fuel) s = SyntaxError.
Proof.
  intros H. apply skip_ws_spaces in H. cbn [parse_value].
  destruct (skip_ws s) as [|c r]; [reflexivity|].
  destruct H as [Hsp Hws].
  not_a_space c. not_a_space c. unfold QUOTE. not_a_space c. not_a_space c.
  assert (Hd : is_digit c = false).
  { unfold is_digit. destruct (48 <=? c) eqn:Hlo; [|reflexivity].
    destruct (c <=? 57) eqn:Hhi; [|reflexivity].
    apply N.leb_le in Hlo, Hhi. exfalso.
    unfold is_js_space in Hsp.
    repeat (apply orb_true_iff in Hsp; destruct Hsp as [Hsp|Hsp]);
      try (apply andb_true_iff in Hsp; destruct Hsp as [Ha Hb];
           apply N.leb_le in Ha, Hb; lia);
      apply N.eqb_eq in Hsp; lia. }
  rewrite Hd. cbn [orb].
  change (js "true") with [116; 114; 117; 101].
  change (js "false") with [102; 97; 108; 115; 101].
  change (js "null") with [110; 117; 108; 108].
  assert (Hlit : forall k, is_js_space k = false -> (k =? c) = false).
  { intros k Hk. destruct (k =? c) eqn:Heq; [|reflexivity].
    apply N.eqb_eq in Heq. subst k. congruence. }
  assert (E116 := Hlit 116 eq_refl).
  assert (E102 := Hlit 102 eq_refl).
  assert (E110 := Hlit 110 eq_refl).
  rewrite (strip_prefix_head _ _ _ _ E116), (strip_prefix_head _ _ _ _ E102),
    (strip_prefix_head _ _ _ _ E110). reflexivity.
Qed.

(** A blank line is not JSON. *)
Lemma JSON_parse_blank (line : jsstring) :
  trim line = [] -> JSON_parse line = None.
Proof.
  intros H. apply trim_nil_spaces in H. unfold JSON_parse.
  replace (2 * length line + 1)%nat with (S (2 * length line)) by lia.
  rewrite (parse_value_spaces _ _ H). reflexivity.
Qed.

Lemma parsed_not_blank (line : jsstring) (v : value) :
  JSON_parse line = Some v -> truthy (VString (trim line)) = true.
Proof.
  intros H. simpl. destruct (trim line) eqn:E; [|reflexivity].
  rewrite (JSON_parse_blank _ E) in H. discriminate.
Qed.

(** *** The fuel of the parser *)

Lemma skip_ws_length (s : jsstring) : (length (skip_ws s) <= length s)%nat.
Proof.
  induction s as [|c s IH]; simpl; [lia|].
  destruct (is_json_ws c); simpl; lia.
Qed.

Lemma skip_ws_cons_length (s r : jsstring) (c : code_unit) :
  skip_ws s = c :: r -> (length r < length s)%nat.
Proof.
  intros H. pose proof (skip_ws_length s) as L. rewrite H in L. simpl in L.
  lia.
Qed.

Lemma strip_prefix_length (p s rest : jsstring) :
  strip_prefix p s = Some rest -> (length rest + length p = length s)%nat.
Proof.
  revert s. induction p as [|x p IH]; intros [|y s]; simpl;
    try discriminate.
  - intros H. injection H as <-. simpl. lia.
  - intros H. injection H as <-. simpl. lia.
  - destruct (x =? y); [|discriminate]. intros H. apply IH in H. lia.
Qed.

Lemma parse_string_chars_length (n : nat) :
  forall s cs rest,
    (length s <= n)%nat ->
    parse_string_chars s = Some (cs, rest) ->
    (length rest < length s)%nat.
Proof.
  induction n as [|n IH]; intros s cs rest Hn.
  - destruct s; [discriminate | simpl in Hn; lia].
  - destruct s as [|c r]; [discriminate|].
    cbn [parse_string_chars].
    destruct (c =? QUOTE).
    { intros H. injection H as _ <-. simpl. lia. }
    destruct (c =? BACKSLASH).
    { destruct r as [|e r']; [discriminate|].
      destruct (e =? 117).
      - destruct r' as [|h1 [|h2 [|h3 [|h4 r'']]]]; try discriminate.
        destruct (hex4 h1 h2 h3 h4); [|discriminate].
        destruct (parse_string_chars r'') as [[cs' rest']|] eqn:E;
          [|discriminate].
        intros H. injection H as _ <-.
        apply IH in E; simpl in *; lia.
      - destruct (unescape e); [|discriminate].
        destruct (parse_string_chars r') as [[cs' rest']|] eqn:E;
          [|discriminate].
        intros H. injection H as _ <-.
        apply IH in E; simpl in *; lia. }
    destruct (c <? 32); [discriminate|].
    destruct (parse_string_chars r) as [[cs' rest']|] eqn:E; [|discriminate].
    intros H. injection H as _ <-.
    apply IH in E; simpl in *; lia.
Qed.

Lemma take_digits_length (s : jsstring) (ds : list N) (rest : jsstring) :
  take_digits s = (ds, rest) ->
  (length rest + length ds = length s)%nat.
Proof.
  revert ds rest. induction s as [|c s IH]; intros ds rest; simpl.
  - intros H. injection H as <- <-. reflexivity.
  - destruct (is_digit c).
    + destruct (take_digits s) as [ds' rest'].
      intros H. injection H as <- <-. specialize (IH _ _ eq_refl).
      simpl. lia.
    + intros H. injection H as <- <-. simpl. lia.
Qed.

Lemma parse_number_length (s : jsstring) (n : number) (rest : jsstring) :
  parse_number s = Some (n, rest) -> (length rest < length s)%nat.
Proof.
  unfold parse_number.
  set (start := match s with
                | [] => (false, s)
                | c :: r => if c =? 45 then (true, r) else (false, s)
                end).
  assert (Hstart : (length (snd start) <= length s)%nat).
  { subst start. destruct s as [|c r]; [simpl; lia|].
    destruct (c =? 45); simpl; lia. }
  destruct start as [neg s1]. simpl in Hstart.
  destruct (parse_int_part s1) as [[ids s2]|] eqn:Hint; [|discriminate].
  assert (H12 : (length s2 < length s1)%nat).
  { unfold parse_int_part in Hint. destruct s1 as [|c r]; [discriminate|].
    destruct (c =? 48).
    - injection Hint as _ <-. simpl. lia.
    - destruct (is_digit c) eqn:Hd; [|discriminate].
      injection Hint as Hint. simpl in Hint. rewrite Hd in Hint.
      destruct (take_digits r) as [ds' rest'] eqn:Ht.
      injection Hint as _ <-. apply take_digits_length in Ht. simpl. lia. }
  destruct (parse_frac_part s2) as [[fds s3]|] eqn:Hfrac; [|discriminate].
  assert (H23 : (length s3 <= length s2)%nat).
  { unfold parse_frac_part in Hfrac. destruct s2 as [|c r].
    - injection Hfrac as _ <-. lia.
    - destruct (c =? 46).
      + destruct (take_digits r) as [[|d ds'] rest'] eqn:Ht; [discriminate|].
        injection Hfrac as _ <-. apply take_digits_length in Ht.
        simpl in *. lia.
      + injection Hfrac as _ <-. lia. }
  destruct (parse_exp_part s3) as [[e s4]|] eqn:Hexp; [|discriminate].
  assert (H34 : (length s4 <= length s3)%nat).
  { unfold parse_exp_part in Hexp. destruct s3 as [|c r].
    - injection Hexp as _ <-. lia.
    - destruct ((c =? 101) || (c =? 69)).
      + set (signed := match r with
                       | [] => (1%Z, r)
                       | x :: t => if x =? 43 then (1%Z, t)
                                   else if x =? 45 then ((-1)%Z, t)
                                        else (1%Z, r)
                       end) in Hexp.
        assert (Hs : (length (snd signed) <= length r)%nat).
        { subst signed. destruct r as [|x t]; [simpl; lia|].
          destruct (x =? 43); [simpl; lia|].
          destruct (x =? 45); simpl; lia. }
        destruct signed as [sign r']. simpl in Hs.
        destruct (take_digits r') as [[|d ds'] rest'] eqn:Ht; [discriminate|].
        injection Hexp as _ <-. apply take_digits_length in Ht.
        simpl in *. lia.
      + injection Hexp as _ <-. lia. }
  intros H. injection H as _ <-. lia.
Qed.

Lemma parse_consumes (fuel : nat) :
  (forall s v rest,
      parse_value fuel s = Parsed v rest -> (length rest < length s)%nat)
  /\ (forall acc s v rest,
        parse_elements fuel acc s = Parsed v rest ->
        (length rest < length s)%nat)
  /\ (forall acc s v rest,
        parse_members fuel acc s = Parsed v rest ->
        (length rest < length s)%nat).
Proof.
  induction fuel as [|fuel [IHv [IHe IHm]]].
  - repeat split; intros; discriminate.
  - repeat split.
    + intros s v rest. cbn [parse_value].
      pose proof (skip_ws_length s) as Ls.
      destruct (skip_ws s) as [|c r]; [discriminate|]. simpl in Ls.
      destruct (c =? 123).
      { pose proof (skip_ws_length r) as Lr.
        destruct (skip_ws r) as [|c' r']; [discriminate|]. simpl in Lr.
        destruct (c' =? 125).
        - intros H. injection H as _ <-. lia.
        - intros H. apply IHm in H. simpl in H. lia. }
      destruct (c =? 91).
      { pose proof (skip_ws_length r) as Lr.
        destruct (skip_ws r) as [|c' r']; [discriminate|]. simpl in Lr.
        destruct (c' =? 93).
        - intros H. injection H as _ <-. lia.
        - intros H. apply IHe in H. simpl in H. lia. }
      destruct (c =? QUOTE).
      { destruct (parse_string_chars r) as [[cs rest']|] eqn:E;
          [|discriminate].
        intros H. injection H as _ <-.
        apply (parse_string_chars_length _ _ _ _ (le_n _)) in E. lia. }
      destruct ((c =? 45) || is_digit c).
      { destruct (parse_number (c :: r)) as [[n rest']|] eqn:E;
          [|discriminate].
        intros H. injection H as _ <-.
        apply parse_number_length in E. simpl in E. lia. }
      destruct (strip_prefix (js "true") (c :: r)) as [rest'|] eqn:Et.
      { intros H. injection H as _ <-.
        apply strip_prefix_length in Et. simpl in Et. lia. }
      destruct (strip_prefix (js "false") (c :: r)) as [rest'|] eqn:Ef.
      { intros H. injection H as _ <-.
        apply strip_prefix_length in Ef. simpl in Ef. lia. }
      destruct (strip_prefix (js "null") (c :: r)) as [rest'|] eqn:En;
        [|discriminate].
      intros H. injection H as _ <-.
      apply strip_prefix_length in En. simpl in En. lia.
    + intros acc s v rest. cbn [parse_elements].
      destruct (parse_value fuel s) as [v1 rest1| |] eqn:E;
        try discriminate.
      apply IHv in E.
      pose proof (skip_ws_length rest1) as L1.
      destruct (skip_ws rest1) as [|c r]; [discriminate|]. simpl in L1.
      destruct (c =? 44).
      { intros H. apply IHe in H. lia. }
      destruct (c =? 93); [|discriminate].
      intros H. injection H as _ <-. lia.
    + intros acc s v rest. cbn [parse_members].
      pose proof (skip_ws_length s) as Ls.
      destruct (skip_ws s) as [|c r]; [discriminate|]. simpl in Ls.
      destruct (c =? QUOTE); [|discriminate].
      destruct (parse_string_chars r) as [[k rest1]|] eqn:Ek;
        [|discriminate].
      apply (parse_string_chars_length _ _ _ _ (le_n _)) in Ek.
      pose proof (skip_ws_length rest1) as L1.
      destruct (skip_ws rest1) as [|c2 r2]; [discriminate|]. simpl in L1.
      destruct (c2 =? 58); [|discriminate].
      destruct (parse_value fuel r2) as [v2 rest2| |] eqn:E;
        try discriminate.
      apply IHv in E.
      pose proof (skip_ws_length rest2) as L2.
      destruct (skip_ws rest2) as [|c3 r3]; [discriminate|]. simpl in L2.
      destruct (c3 =? 44).
      { intros H. apply IHm in H. lia. }
      destruct (c3 =? 125); [|discriminate].
      intros H. injection H as _ <-. lia.
Qed.

Lemma parse_fuel (fuel : nat) :
  (forall s, (2 * length s < fuel)%nat -> parse_value fuel s <> OutOfFuel)
  /\ (forall acc s,
        (2 * length s + 1 < fuel)%nat ->
        parse_elements fuel acc s <> OutOfFuel)
  /\ (forall acc s,
        (2 * length s + 1 < fuel)%nat ->
        parse_members fuel acc s <> OutOfFuel).
Proof.
  induction fuel as [|fuel [IHv [IHe IHm]]].
  - repeat split; intros; lia.
  - repeat split.
    + intros s Hs. cbn [parse_value].
      pose proof (skip_ws_length s) as Ls.
      destruct (skip_ws s) as [|c r]; [discriminate|]. simpl in Ls.
      destruct (c =? 123).
      { pose proof (skip_ws_length r) as Lr.
        destruct (skip_ws r) as [|c' r']; [discriminate|]. simpl in Lr.
        destruct (c' =? 125); [discriminate|].
        apply IHm. simpl. lia. }
      destruct (c =? 91).
      { pose proof (skip_ws_length r) as Lr.
        destruct (skip_ws r) as [|c' r']; [discriminate|]. simpl in Lr.
        destruct (c' =? 93); [discriminate|].
        apply IHe. simpl. lia. }
      destruct (c =? QUOTE).
      { destruct (parse_string_chars r) as [[cs rest']|]; discriminate. }
      destruct ((c =? 45) || is_digit c).
      { destruct (parse_number (c :: r)) as [[n rest']|]; discriminate. }
      destruct (strip_prefix (js "true") (c :: r)); [discriminate|].
      destruct (strip_prefix (js "false") (c :: r)); [discriminate|].
      destruct (strip_prefix (js "null") (c :: r)); discriminate.
    + intros acc s Hs. cbn [parse_elements].
      destruct (parse_value fuel s) as [v1 rest1| |] eqn:E.
      * apply (proj1 (parse_consumes fuel)) in E.
        pose proof (skip_ws_length rest1) as L1.
        destruct (skip_ws rest1) as [|c r]; [discriminate|]. simpl in L1.
        destruct (c =? 44); [apply IHe; lia|].
        destruct (c =? 93); discriminate.
      * discriminate.
      * exfalso. revert E. apply IHv. lia.
    + intros acc s Hs. cbn [parse_members].
      pose proof (skip_ws_length s) as Ls.
      destruct (skip_ws s) as [|c r]; [discriminate|]. simpl in Ls.
      destruct (c =? QUOTE); [|discriminate].
      destruct (parse_string_chars r) as [[k rest1]|] eqn:Ek;
        [|discriminate].
      apply (parse_string_chars_length _ _ _ _ (le_n _)) in Ek.
      pose proof (skip_ws_length rest1) as L1.
      destruct (skip_ws rest1) as [|c2 r2]; [discriminate|]. simpl in L1.
      destruct (c2 =? 58); [|discriminate].
      destruct (parse_value fuel r2) as [v2 rest2| |] eqn:E.
      * apply (proj1 (parse_consumes fuel)) in E.
        pose proof (skip_ws_length rest2) as L2.
        destruct (skip_ws rest2) as [|c3 r3]; [discriminate|]. simpl in L2.
        destruct (c3 =? 44); [apply IHm; lia|].
        destruct (c3 =? 125); discriminate.
      * discriminate.
      * exfalso. revert E. apply IHv. lia.
Qed.

(** The fuel [JSON_parse] gives its parser is enough: a [None] is always a
    syntax error of the text. *)
Lemma JSON_parse_fuel (text : jsstring) :
  parse_value (2 * length text + 1) text <> OutOfFuel.
Proof. apply (proj1 (parse_fuel _)). lia. Qed.

(** *** Canonical numbers *)

Lemma strip_zeros_canonical (fuel : nat) (m e : Z) :
  (m <> 0)%Z -> (Z.abs m < 2 ^ Z.of_nat fuel)%Z ->
  (mant (strip_zeros fuel m e) mod 10 <> 0)%Z.
Proof.
  revert m e. induction fuel as [|fuel IH]; intros m e Hm Hb.
  - simpl in Hb. lia.
  - cbn [strip_zeros]. destruct (m mod 10 =? 0)%Z eqn:Hmod.
    + apply Z.eqb_eq in Hmod.
      pose proof (Z.div_mod m 10 ltac:(lia)) as Hdm.
      apply IH; [lia|].
      rewrite Nat2Z.inj_succ, Z.pow_succ_r in Hb by lia. lia.
    + apply Z.eqb_neq in Hmod. exact Hmod.
Qed.

(** The mantissa of a normalized number that is not zero does not end
    in 0. *)
Lemma normalize_canonical (m e : Z) :
  (m <> 0)%Z -> (mant (normalize m e) mod 10 <> 0)%Z.
Proof.
  intros Hm. unfold normalize.
  destruct (m =? 0)%Z eqn:E; [apply Z.eqb_eq in E; contradiction|].
  apply strip_zeros_canonical; [exact Hm|].
  rewrite Nat2Z.inj_succ, Z2Nat.id by apply Z.log2_nonneg.
  apply Z.log2_lt_pow2; [lia|]. lia.
Qed.

(** *** The loop over the lines *)

Lemma scanLine_parsed (last : value) (line : jsstring) (v : value) :
  JSON_parse line = Some v -> scanLine last line = v.
Proof.
  intros H. unfold scanLine.
  rewrite (parsed_not_blank _ _ H), H. reflexivity.
Qed.

Lemma scanLine_unparsed (last : value) (line : jsstring) :
  JSON_parse line = None -> scanLine last line = last.
Proof.
  intros H. unfold scanLine. rewrite H.
  destruct (truthy (VString (trim line))); reflexivity.
Qed.

Lemma scan_unparsed (lines : list jsstring) (init : value) :
  Forall (fun l => JSON_parse l = None) lines ->
  fold_left scanLine lines init = init.
Proof.
  intros H. revert init.
  induction H as [|l ls Hl _ IH]; intros init; [reflexivity|].
  simpl. rewrite (scanLine_unparsed _ _ Hl). apply IH.
Qed.

Lemma scan_last (lines : list jsstring) (init : value) :
  fold_left scanLine lines init = last (Spec.parsedValues lines) init.
Proof.
  revert init. induction lines as [|l ls IH]; intros init; [reflexivity|].
  cbn [fold_left]. rewrite IH.
  change (Spec.parsedValues (l :: ls))
    with ((if truthy (VString (trim l)) then
             match JSON_parse l with Some v => [v] | None => [] end
           else []) ++ Spec.parsedValues ls).
  unfold scanLine.
  destruct (truthy (VString (trim l))); [|reflexivity].
  destruct (JSON_parse l) as [v|]; [|reflexivity].
  change ([v] ++ Spec.parsedValues ls) with (v :: Spec.parsedValues ls).
  rewrite last_cons_default. reflexivity.
Qed.

Lemma scan_split (before after : list jsstring) (line : jsstring)
  (init v : value) :
  JSON_parse line = Some v ->
  Forall (fun l => JSON_parse l = None) after ->
  fold_left scanLine (before ++ line :: after) init = v.
Proof.
  intros Hv Hafter. rewrite fold_left_app. simpl.
  rewrite (scanLine_parsed _ _ _ Hv). apply scan_unparsed. exact Hafter.
Qed.

Lemma scan_skip (before after : list jsstring) (bad : jsstring)
  (init : value) :
  JSON_parse bad = None ->
  fold_left scanLine (before ++ bad :: after) init
  = fold_left scanLine (before ++ after) init.
Proof.
  intros H. rewrite !fold_left_app. simpl.
  rewrite (scanLine_unparsed _ _ H). reflexivity.
Qed.

(** *** Claims on the lines of the response *)

(** C1.  The response body (trimmed) is split on newlines; the value kept
    for extraction is the last of the values of the lines that are not blank
    and parse, [null] when there is none.  Hence, whatever the lines before
    it, a line that parses and is followed only by lines that do not parse
    gives the value kept; and a line that does not parse can be taken away
    without changing the value kept. *)
Theorem last_valid_line_wins (responseText : jsstring) :
  lastValidJsonOf responseText
  = last (Spec.parsedValues (responseLines responseText)) VNull
  /\ (forall before line after v,
        responseLines responseText = before ++ line :: after ->
        JSON_parse line = Some v ->
        Forall (fun l => JSON_parse l = None) after ->
        lastValidJsonOf responseText = v)
  /\ (forall before bad after,
        responseLines responseText = before ++ bad :: after ->
        JSON_parse bad = None ->
        lastValidJsonOf responseText
        = fold_left scanLine (before ++ after) VNull).
Proof.
  unfold lastValidJsonOf. split; [apply scan_last|]. split.
  - intros before line after v Hlines Hv Hafter.
    rewrite Hlines. apply scan_split; assumption.
  - intros before bad after Hlines Hbad.
    rewrite Hlines. apply scan_skip. exact Hbad.
Qed.

Lemma last_valid_line_wins_witness :
  lastValidJsonOf Samples.interspersed
  = VObject [(js "text", VString (js "b"))].
Proof.
  apply (proj1 (proj2 (last_valid_line_wins Samples.interspersed))
           [Samples.line_a; js "noise"] Samples.line_b [[]; js "oops"]).
  - vm_compute. reflexivity.
  - vm_compute. reflexivity.
  - repeat constructor.
Defined.

(** C8.  When no line of the response parses as JSON, the extraction
    returns the raw response body, unchanged. *)
Theorem unparseable_body_returned_raw (responseText : jsstring) :
  Forall (fun l => JSON_parse l = None) (responseLines responseText) ->
  extractResponse responseText = VString responseText.
Proof.
  intros H. unfold extractResponse, tryExtract, lastValidJsonOf.
  rewrite (scan_unparsed _ _ H). reflexivity.
Qed.

Lemma unparseable_body_returned_raw_witness :
  extractResponse Samples.notJson = VString (js "not json").
Proof.
  apply (unparseable_body_returned_raw Samples.notJson).
  replace (responseLines Samples.notJson) with [js "not json"]
    by (vm_compute; reflexivity).
  constructor; [vm_compute; reflexivity | constructor].
Defined.

(** C10.  When the last line that parses gives a falsy value ([null],
    [false], [0], the empty string), the extraction passes that value over
    and returns the raw response body. *)
Theorem falsy_last_value_returns_raw (responseText : jsstring)
  (before after : list jsstring) (line : jsstring) (v : value) :
  responseLines responseText = before ++ line :: after ->
  JSON_parse line = Some v ->
  Forall (fun l => JSON_parse l = None) after ->
  truthy v = false ->
  extractResponse responseText = VString responseText.
Proof.
  intros Hlines Hv Hafter Hfalsy.
  unfold extractResponse, tryExtract, lastValidJsonOf.
  rewrite Hlines, (scan_split _ _ _ _ _ Hv Hafter), Hfalsy. reflexivity.
Qed.

Lemma falsy_last_value_returns_raw_witness :
  extractResponse Samples.endsWithZero = VString Samples.endsWithZero.
Proof.
  apply (falsy_last_value_returns_raw Samples.endsWithZero
           [Samples.line_a] [] (js "0") (VNumber (Num 0 0))).
  - vm_compute. reflexivity.
  - vm_compute. reflexivity.
  - constructor.
  - reflexivity.
Defined.

(** *** Numbers and property reads *)

Lemma strip_zeros_pos (fuel : nat) (m e : Z) :
  (0 < m)%Z -> (0 < mant (strip_zeros fuel m e))%Z.
Proof.
  revert m e. induction fuel as [|fuel IH]; intros m e Hm; [exact Hm|].
  simpl. destruct (m mod 10 =? 0)%Z eqn:Hmod; [|exact Hm].
  apply IH. apply Z.eqb_eq in Hmod.
  pose proof (Z.div_mod m 10 ltac:(lia)) as Hdm. lia.
Qed.

Lemma length_positive {A} (l : list A) :
  gt_zero (VNumber (number_of_N (N.of_nat (length l))))
  = match l with [] => false | _ :: _ => true end.
Proof.
  destruct l as [|x l]; [reflexivity|].
  unfold gt_zero, number_of_N, normalize.
  assert (Hpos : (0 < Z.of_N (N.of_nat (length (x :: l))))%Z) by (simpl; lia).
  destruct (Z.of_N (N.of_nat (length (x :: l))) =? 0)%Z eqn:E.
  - apply Z.eqb_eq in E. lia.
  - apply Z.ltb_lt. apply strip_zeros_pos. exact Hpos.
Qed.

(** A read on a truthy value does not throw. *)
Lemma get_truthy (v : value) (k : string) :
  truthy v = true -> get v (js k) = Normal (Spec.field v k).
Proof.
  unfold Spec.field. destruct v; simpl; try discriminate; intros _;
    repeat match goal with
           | |- context [if ?c then _ else _] => destruct c
           | |- context [match ?o with Some _ => _ | None => _ end] =>
               destruct o
           end; reflexivity.
Qed.

(** A read on a falsy value gives nothing truthy. *)
Lemma field_falsy (v : value) (k : string) :
  truthy v = false -> truthy (Spec.field v k) = false.
Proof.
  unfold Spec.field. destruct v as [| |b|n|s|elems|props]; simpl;
    try discriminate; try reflexivity.
  destruct s as [|c s]; [|discriminate]. intros _.
  destruct (str_eqb (js k) (js "length")); [reflexivity|].
  destruct (array_index (js k)) as [i|]; [|reflexivity].
  destruct (N.to_nat i); reflexivity.
Qed.

Lemma field_truthy_parent (v : value) (k : string) :
  truthy (Spec.field v k) = true -> truthy v = true.
Proof.
  intros H. destruct (truthy v) eqn:Hv; [reflexivity|].
  rewrite (field_falsy v k Hv) in H. discriminate.
Qed.

(** *** The conditions of the extraction chain *)

(** [L.k1 && L.k1.k2] on a truthy [L] *)
Lemma guard_path2 (v : value) (k1 k2 : string) :
  truthy v = true ->
  and_also (is_truthy (dot (Normal v) (js k1)))
           (is_truthy (dot (dot (Normal v) (js k1)) (js k2)))
  = Normal (truthy (Spec.field (Spec.field v k1) k2)).
Proof.
  intros Hv. unfold dot, is_truthy, and_also. cbn [cbind].
  rewrite (get_truthy v k1 Hv). cbn [cbind].
  destruct (truthy (Spec.field v k1)) eqn:H1.
  - rewrite (get_truthy _ k2 H1). reflexivity.
  - rewrite (field_falsy _ k2 H1). reflexivity.
Qed.

(** [L.k1.k2] when the guard holds *)
Lemma read_path2 (v : value) (k1 k2 : string) :
  truthy v = true ->
  truthy (Spec.field (Spec.field v k1) k2) = true ->
  dot (dot (Normal v) (js k1)) (js k2)
  = Normal (Spec.field (Spec.field v k1) k2).
Proof.
  intros Hv H2. unfold dot. cbn [cbind].
  rewrite (get_truthy v k1 Hv). cbn [cbind].
  apply get_truthy. exact (field_truthy_parent _ _ H2).
Qed.

Lemma get_defined (v : value) (k : string) :
  Spec.nullish v = false -> get v (js k) = Normal (Spec.field v k).
Proof.
  unfold Spec.field. destruct v; simpl; try discriminate; intros _;
    repeat match goal with
           | |- context [if ?c then _ else _] => destruct c
           | |- context [match ?o with Some _ => _ | None => _ end] =>
               destruct o
           end; reflexivity.
Qed.

Lemma get_nullish (v : value) (k : jsstring) :
  Spec.nullish v = true -> exists e, get v k = Throw e.
Proof.
  destruct v; simpl; try discriminate; intros _; eexists; reflexivity.
Qed.

(** [L.k && Array.isArray(L.k) && L.k.length > 0 && L.k[0].text] on a
    truthy [L]: the read of [text] on the first element of a list that is
    not empty, false for anything else. *)
Lemma guard_list (v : value) (k : string) :
  truthy v = true ->
  and_also
    (and_also
       (and_also (is_truthy (dot (Normal v) (js k)))
                 (isArray (dot (Normal v) (js k))))
       (positive (dot (dot (Normal v) (js k)) (js "length"))))
    (is_truthy (dot (dot (dot (Normal v) (js k)) (js "0")) (js "text")))
  = match Spec.field v k with
    | VArray (x :: _) => is_truthy (get x (js "text"))
    | _ => Normal false
    end.
Proof.
  intros Hv. unfold dot, is_truthy, isArray, positive, and_also.
  cbn [cbind]. rewrite (get_truthy v k Hv). cbn [cbind].
  destruct (Spec.field v k) as [| |b|n|s|elems|props].
  - reflexivity.
  - reflexivity.
  - destruct b; reflexivity.
  - cbn [truthy Array_isArray]. destruct (negb (is_zero n)); reflexivity.
  - destruct s; reflexivity.
  - cbn [truthy Array_isArray cbind].
    change (get (VArray elems) (js "length"))
      with (Normal (VNumber (number_of_N (N.of_nat (length elems))))).
    cbn [cbind]. rewrite length_positive.
    destruct elems as [|x elems]; reflexivity.
  - reflexivity.
Qed.

(** [L.k[0].text] when the guard holds *)
Lemma read_list (v : value) (k : string) (x : value) (rest : list value) :
  truthy v = true ->
  Spec.field v k = VArray (x :: rest) ->
  dot (dot (dot (Normal v) (js k)) (js "0")) (js "text") = get x (js "text").
Proof.
  intros Hv Hk. unfold dot. cbn [cbind].
  rewrite (get_truthy v k Hv), Hk. reflexivity.
Qed.

(** The capture of a match is never empty. *)
Lemma match_text_regex_capture (s whole group1 : jsstring) :
  match_text_regex s = Some (whole, group1) ->
  truthy (VString group1) = true.
Proof.
  induction s as [|c s IH]; simpl.
  - unfold match_here. simpl. discriminate.
  - destruct (match_here (c :: s)) as [[w g]|] eqn:Hm; [|exact IH].
    intros H. injection H as _ Hg. subst g.
    unfold match_here in Hm.
    destruct (strip_prefix text_pattern_head (c :: s)) as [tail|];
      [|discriminate].
    destruct (take_non_quote tail) as [[|c1 run] [|c2 rest]];
      try discriminate.
    injection Hm as _ Hg. subst group1. reflexivity.
Qed.

Lemma extractFallback_truthy (v : value) :
  truthy v = true ->
  extractFallback v = Normal (Spec.serializedFallback v).
Proof.
  intros Hv. unfold extractFallback, Spec.serializedFallback.
  destruct (JSON_stringify v) as [jsonStr|] eqn:Hs.
  - destruct (match_text_regex jsonStr) as [[whole group1]|] eqn:Hm;
      [|reflexivity].
    rewrite (match_text_regex_capture _ _ _ Hm). reflexivity.
  - destruct v; try discriminate. destruct b; discriminate.
Qed.

(** *** Claims on the extraction chain *)


(** *** Claims on the extraction chain *)

(** The end of the chain, from [message.content] on. *)
Lemma extract_tail (v : value) :
  truthy v = true ->
  let MC := Spec.field (Spec.field v "message") "content" in
  if_return (Normal (truthy MC))
    (dot (dot (Normal v) (js "message")) (js "content"))
    (if_return
       (and_also
          (and_also
             (and_also
                (Normal (truthy MC))
                (isArray (dot (dot (Normal v) (js "message")) (js "content"))))
             (positive
                (dot (dot (dot (Normal v) (js "message")) (js "content"))
                     (js "length"))))
          (is_truthy
             (dot (dot (dot (dot (Normal v) (js "message")) (js "content"))
                       (js "0"))
                  (js "text"))))
       (dot (dot (dot (dot (Normal v) (js "message")) (js "content"))
                 (js "0"))
            (js "text"))
       (if_return (is_truthy (dot (Normal v) (js "text")))
          (dot (Normal v) (js "text")) (extractFallback v)))
  = if truthy MC then Normal MC
    else if truthy (Spec.pathF v) then Normal (Spec.pathF v)
    else Normal (Spec.serializedFallback v).
Proof.
  intros Hv MC. subst MC.
  destruct (truthy (Spec.field (Spec.field v "message") "content")) eqn:Hm.
  - cbn [if_return cbind]. apply (read_path2 v "message" "content" Hv Hm).
  - cbn [if_return cbind and_also].
    unfold is_truthy, dot. cbn [cbind].
    rewrite (get_truthy v "text" Hv). cbn [cbind].
    fold (Spec.pathF v). destruct (truthy (Spec.pathF v)); [reflexivity|].
    apply extractFallback_truthy. exact Hv.
Qed.

Lemma extractFrom_amended (raw : jsstring) (v r : value) :
  truthy v = true ->
  Spec.amendedExtract raw v = Some r ->
  match extractFrom v with
  | Normal x => x
  | Throw _ => VString raw
  end = r.
Proof.
  intros Hv. unfold Spec.amendedExtract, extractFrom. cbv zeta.
  rewrite (guard_path2 v "delta" "text" Hv).
  unfold if_return at 1. cbn [cbind].
  fold (Spec.pathA v). destruct (truthy (Spec.pathA v)) eqn:Ha.
  { rewrite (read_path2 v "delta" "text" Hv Ha).
    intros H. injection H as <-. reflexivity. }
  rewrite (guard_path2 v "content" "text" Hv).
  unfold if_return at 1. cbn [cbind].
  fold (Spec.pathB v). destruct (truthy (Spec.pathB v)) eqn:Hb.
  { rewrite (read_path2 v "content" "text" Hv Hb).
    intros H. injection H as <-. reflexivity. }
  rewrite (guard_list v "content" Hv).
  rewrite (guard_path2 v "message" "content" Hv).
  rewrite (extract_tail v Hv).
  assert (Htail :
    (if truthy (Spec.field (Spec.field v "message") "content")
     then if Spec.isText (Spec.field (Spec.field v "message") "content")
          then Some (Spec.field (Spec.field v "message") "content")
          else None
     else if truthy (Spec.pathF v) then Some (Spec.pathF v)
          else Some (Spec.serializedFallback v)) = Some r ->
    match
      (if truthy (Spec.field (Spec.field v "message") "content")
       then Normal (Spec.field (Spec.field v "message") "content")
       else if truthy (Spec.pathF v) then Normal (Spec.pathF v)
            else Normal (Spec.serializedFallback v))
    with
    | Normal x => x
    | Throw _ => VString raw
    end = r).
  { destruct (truthy (Spec.field (Spec.field v "message") "content")).
    - destruct (Spec.isText _); [|discriminate].
      intros H. injection H as <-. reflexivity.
    - destruct (truthy (Spec.pathF v));
        intros H; injection H as <-; reflexivity. }
  unfold Spec.pathC.
  pose proof (read_list v "content") as Hread.
  destruct (Spec.field v "content") as [| |b|n|s|elems|props];
    try exact Htail.
  destruct elems as [|x elems]; [exact Htail|].
  rewrite (Hread x elems Hv eq_refl).
  cbn [Spec.nullHead Spec.nonEmptyList Spec.when].
  change (Spec.field (VArray (x :: elems)) "0") with x.
  destruct (Spec.nullish x) eqn:Hx.
  - destruct (get_nullish x (js "text") Hx) as [e He]. rewrite He.
    intros H. injection H as <-. reflexivity.
  - rewrite (get_defined x "text" Hx).
    unfold is_truthy, if_return. cbn [cbind].
    destruct (truthy (Spec.field x "text")); [|exact Htail].
    intros H. injection H as <-. reflexivity.
Qed.

(** C2, as stated, fails.  On a response whose [content] is the list of a
    single [null], beside a [text] field, the specification's order gives
    the text (path (f)), while the adapter returns the raw response: the
    read of [text] on [null] throws and the catch of the extraction answers
    with the raw response. *)
Lemma extraction_priority_counterexample :
  lastValidJsonOf Samples.nullContent
  = VObject [(js "content", VArray [VNull]); (js "text", VString (js "hi"))]
  /\ Spec.priorityExtract (lastValidJsonOf Samples.nullContent)
     = VString (js "hi")
  /\ extractResponse Samples.nullContent = VString Samples.nullContent
  /\ extractResponse Samples.nullContent
     <> Spec.priorityExtract (lastValidJsonOf Samples.nullContent).
Proof.
  split; [vm_compute; reflexivity|].
  split; [vm_compute; reflexivity|].
  split; [vm_compute; reflexivity|].
  vm_compute. discriminate.
Qed.

(** C2, amended.  On a truthy last valid JSON the extraction returns the
    first of these that holds a truthy value: (a) [delta.text],
    (b) [content.text], (c) [content[0].text] when [content] is a list that
    is not empty, (d) [message.content] when it is text, (f) [text]; else
    (g) the first capture of the text pattern in the serialized object, else
    (h) the serialized object.  When (a) and (b) fail and the first element
    of the [content] list is [null], it returns the raw response.  Nothing
    is stated of a [message.content] that is truthy and not text. *)
Theorem extraction_priority_amended (responseText : jsstring) (r : value) :
  truthy (lastValidJsonOf responseText) = true ->
  Spec.amendedExtract responseText (lastValidJsonOf responseText) = Some r ->
  extractResponse responseText = r.
Proof.
  intros Hv Hr. unfold extractResponse, tryExtract. rewrite Hv.
  exact (extractFrom_amended responseText _ r Hv Hr).
Qed.

Lemma extraction_priority_amended_witness :
  extractResponse Samples.contentList = VString (js "hi").
Proof.
  apply (extraction_priority_amended Samples.contentList (VString (js "hi"))).
  - vm_compute. reflexivity.
  - vm_compute. reflexivity.
Defined.

(** C3.  The extraction is documented to give a string, and does not on a
    response whose [message.content] is a list of text blocks: it returns
    the list itself, the test on [message.content] coming before the
    branch that would read [message.content[0].text]. *)
Theorem extraction_returns_list :
  extractResponse Samples.messageList = VArray [Samples.textBlockValue]
  /\ Spec.isText (extractResponse Samples.messageList) = false
  /\ Spec.priorityExtract (lastValidJsonOf Samples.messageList)
     = VString (js "hi")
  /\ result (generateVertexClaudeText
               (Samples.params Samples.conversation None)
               (Samples.answering Samples.messageList))
     = Normal (VArray [Samples.textBlockValue]).
Proof.
  split; [vm_compute; reflexivity|].
  split; [vm_compute; reflexivity|].
  split; vm_compute; reflexivity.
Qed.

(** *** Claims on the request *)

Lemma str_eqb_eq (a b : jsstring) : str_eqb a b = true -> a = b.
Proof.
  revert b. induction a as [|x a IH]; intros [|y b]; simpl;
    try discriminate; [reflexivity|].
  intros H. apply andb_true_iff in H. destruct H as [Hxy Hab].
  apply N.eqb_eq in Hxy. rewrite Hxy, (IH b Hab). reflexivity.
Qed.

Lemma system_not_user (r : jsstring) :
  str_eqb r (js "system") = true -> str_eqb r (js "user") = false.
Proof. intros H. rewrite (str_eqb_eq _ _ H). reflexivity. Qed.

(** The loop over the messages, from any state: the system prompt is the
    content of the last system message, the user messages are the contents
    of the user messages in order. *)
Lemma collect_from (msgs : list Message) (o : option jsstring)
  (users : list jsstring) :
  fold_left collectMessage msgs (Spec.or_empty o, users)
  = (Spec.or_empty
       (fold_left (fun acc m =>
                     if str_eqb (role m) (js "system")
                     then Some (content m) else acc) msgs o),
     users ++ Spec.userContents msgs).
Proof.
  revert o users. induction msgs as [|m msgs IH]; intros o users.
  - simpl. rewrite app_nil_r. reflexivity.
  - cbn [fold_left]. unfold Spec.userContents. cbn [filter].
    unfold collectMessage at 2.
    destruct (str_eqb (role m) (js "system")) eqn:Hsys.
    + rewrite (system_not_user _ Hsys).
      change (content m) with (Spec.or_empty (Some (content m))) at 1.
      rewrite IH. reflexivity.
    + destruct (str_eqb (role m) (js "user")).
      * rewrite IH. cbn [map]. rewrite <- app_assoc. reflexivity.
      * rewrite IH. reflexivity.
Qed.

Lemma collectMessages_spec (msgs : list Message) :
  collectMessages msgs
  = (Spec.or_empty (Spec.lastSystem msgs), Spec.userContents msgs).
Proof. exact (collect_from msgs None []). Qed.

Lemma promptText_amended (msgs : list Message) :
  VertexClaude.promptText msgs = Spec.amendedPromptText msgs.
Proof.
  unfold VertexClaude.promptText, Spec.amendedPromptText.
  rewrite collectMessages_spec.
  destruct (Spec.lastSystem msgs) as [[|c system]|]; reflexivity.
Qed.

Lemma lastSystem_skip (before after : list Message) (m : Message) :
  str_eqb (role m) (js "system") = false ->
  Spec.lastSystem (before ++ m :: after) = Spec.lastSystem (before ++ after).
Proof.
  intros H. unfold Spec.lastSystem. rewrite !fold_left_app.
  cbn [fold_left]. rewrite H. reflexivity.
Qed.

Lemma userContents_skip (before after : list Message) (m : Message) :
  str_eqb (role m) (js "user") = false ->
  Spec.userContents (before ++ m :: after)
  = Spec.userContents (before ++ after).
Proof.
  intros H. unfold Spec.userContents. rewrite !filter_app.
  cbn [filter]. rewrite H. reflexivity.
Qed.

(** *** Runs of the adapters *)

Lemma getAccessToken_run (w : World) :
  getAccessToken w
  = let o := exec w (js "gcloud auth print-access-token") in
    if (exit_code o =? 0)%Z
    then (Normal (trim (stdout o)),
          [EvExec (js "gcloud auth print-access-token")])
    else (Throw (mkError (js "Failed to get access token: "
                            ++ message (exec_error (js "gcloud auth print-access-token") o))),
          [EvExec (js "gcloud auth print-access-token")]).
Proof.
  unfold getAccessToken, try_catch, bind, execAsync, ret, throw. cbv zeta.
  destruct (exit_code (exec w (js "gcloud auth print-access-token")) =? 0)%Z;
    reflexivity.
Qed.

Lemma callVertex_unconfigured (p : Params) (w : World) :
  env_truthy (env w (js "VERTEX_PROJECT_ID")) = false
  \/ env_truthy (env w (js "VERTEX_LOCATION")) = false ->
  callVertex p w
  = (Throw (mkError (js "VERTEX_PROJECT_ID and VERTEX_LOCATION environment variables must be set")),
     []).
Proof.
  intros H.
  assert (Hc : negb (env_truthy (env w (js "VERTEX_PROJECT_ID")))
               || negb (env_truthy (env w (js "VERTEX_LOCATION"))) = true).
  { destruct H as [H|H]; rewrite H; [reflexivity | apply orb_true_r]. }
  unfold callVertex, bind, getenv. rewrite Hc. reflexivity.
Qed.

Lemma callVertex_configured (p : Params) (w : World) :
  env_truthy (env w (js "VERTEX_PROJECT_ID")) = true ->
  env_truthy (env w (js "VERTEX_LOCATION")) = true ->
  callVertex p w
  = let cmd := js "gcloud auth print-access-token" in
    let o := exec w cmd in
    if (exit_code o =? 0)%Z then
      let req := request (env_text (env w (js "VERTEX_LOCATION")))
                         (env_text (env w (js "VERTEX_PROJECT_ID")))
                         (trim (stdout o)) p in
      match fetch w req with
      | Responded r =>
          if ok r
          then (Normal (extractResponse (responseBody r)),
                [EvExec cmd; EvFetch req])
          else (Throw (mkError (js "Vertex AI API error ("
                                  ++ string_of_N (status r) ++ js "): "
                                  ++ responseBody r)),
                [EvExec cmd; EvFetch req])
      | Rejected e => (Throw e, [EvExec cmd; EvFetch req])
      end
    else (Throw (mkError (js "Failed to get access token: "
                            ++ message (exec_error cmd o))),
          [EvExec cmd]).
Proof.
  intros Hp Hl. unfold callVertex.
  unfold bind at 1. unfold getenv at 1.
  unfold bind at 1. unfold getenv at 1.
  rewrite Hp, Hl. cbn [negb orb].
  unfold bind at 1. rewrite getAccessToken_run. cbv zeta.
  destruct (exit_code (exec w (js "gcloud auth print-access-token")) =? 0)%Z;
    [|reflexivity].
  unfold bind, doFetch, throw, ret.
  destruct (fetch w _) as [r|e]; [|reflexivity].
  destruct (ok r); reflexivity.
Qed.

Lemma generate_run (p : Params) (w : World) :
  generateVertexClaudeText p w
  = let model := or_default (modelId p) DEFAULT_MODEL in
    let start :=
      EvLog (js "info")
            (js "Generating text with Vertex AI Claude model: " ++ model) in
    match callVertex p w with
    | (Normal v, t) => (Normal v, start :: t)
    | (Throw e, t) =>
        (Throw e,
         start :: t ++ [EvLog (js "error")
                          (js "Error generating text with Vertex AI Claude ("
                             ++ model ++ js "): " ++ message e)])
    end.
Proof.
  unfold generateVertexClaudeText, bind, log, try_catch, throw. cbv zeta.
  destruct (callVertex p w) as [[v|e] t]; reflexivity.
Qed.

(** Whatever is sent to the endpoint carries the serialized payload. *)
Lemma fetch_carries_payload (p : Params) (w : World) (req : Request) :
  In (EvFetch req) (trace (generateVertexClaudeText p w)) ->
  body req = JSON_stringify (payload p).
Proof.
  rewrite generate_run. cbv zeta.
  destruct (env_truthy (env w (js "VERTEX_PROJECT_ID"))) eqn:Hp;
    [destruct (env_truthy (env w (js "VERTEX_LOCATION"))) eqn:Hl|].
  - rewrite (callVertex_configured p w Hp Hl). cbv zeta.
    destruct (exit_code _ =? 0)%Z.
    + destruct (fetch w _) as [r|e]; [destruct (ok r)|];
        cbn [trace snd In app];
        intros H; repeat (destruct H as [H|H]; try discriminate H);
        try contradiction; injection H as <-; reflexivity.
    + cbn [trace snd In app].
      intros H; repeat (destruct H as [H|H]; try discriminate H);
        contradiction.
  - rewrite (callVertex_unconfigured p w (or_intror Hl)).
    cbn [trace snd In app].
    intros H; repeat (destruct H as [H|H]; try discriminate H);
      contradiction.
  - rewrite (callVertex_unconfigured p w (or_introl Hp)).
    cbn [trace snd In app].
    intros H; repeat (destruct H as [H|H]; try discriminate H);
      contradiction.
Qed.

(** A call that gets an answer of status 2xx returns what the extraction
    makes of the answer: the extraction never makes the call fail. *)
Lemma generate_answered (p : Params) (w : World) (r : Response) :
  env_truthy (env w (js "VERTEX_PROJECT_ID")) = true ->
  env_truthy (env w (js "VERTEX_LOCATION")) = true ->
  exit_code (exec w (js "gcloud auth print-access-token")) = 0%Z ->
  (forall req, fetch w req = Responded r) ->
  ok r = true ->
  result (generateVertexClaudeText p w)
  = Normal (extractResponse (responseBody r)).
Proof.
  intros Hp Hl Hexit Hfetch Hok.
  rewrite generate_run, (callVertex_configured p w Hp Hl). cbv zeta.
  rewrite Hexit, Hfetch, Hok. reflexivity.
Qed.

Lemma generateVertexText_run (p : Vertex.Params) (w : World) :
  Vertex.generateVertexText p w
  = let model := or_default (Vertex.modelId p) Vertex.DEFAULT_MODEL in
    let start :=
      EvLog (js "info") (js "Generating text with Vertex AI model: " ++ model) in
    let call :=
      {| project := Vertex.env_or (env w (js "VERTEX_PROJECT_ID"))
                                  (js "default-project");
         sdkLocation := Vertex.env_or (env w (js "VERTEX_LOCATION"))
                                      (js "us-central1");
         model := model;
         sdkMessages := Vertex.messages p;
         sdkTemperature :=
           or_default (Vertex.temperature p) Vertex.DEFAULT_TEMPERATURE;
         maxOutputTokens := Vertex.maxTokens p |} in
    match sdkGenerateText w call with
    | Normal text => (Normal text, [start; EvSdk call])
    | Throw e =>
        (Throw e,
         [start; EvSdk call;
          EvLog (js "error")
                (js "Error generating text with Vertex AI (" ++ model
                   ++ js "): " ++ message e)])
    end.
Proof.
  unfold Vertex.generateVertexText, bind, log, try_catch, throw, getenv,
    sdkCall, ret. cbv zeta.
  destruct (sdkGenerateText w _) as [text|e]; reflexivity.
Qed.

(** *** Claims on the request and on the call *)

(** C4, as stated, fails.  With a system message whose content is empty the
    specification's text starts with the blank line that follows the system
    part, while the adapter leaves the system part out, separator
    included. *)
Lemma request_prompt_counterexample :
  VertexClaude.promptText Samples.emptySystem = js "hi"
  /\ Spec.promptText Samples.emptySystem = [LF; LF] ++ js "hi"
  /\ VertexClaude.promptText Samples.emptySystem
     <> Spec.promptText Samples.emptySystem.
Proof.
  split; [vm_compute; reflexivity|].
  split; [vm_compute; reflexivity|].
  vm_compute. discriminate.
Qed.

(** C4, amended.  The payload has exactly one message, of role user, with
    exactly one content block, of type text, whose text is the content of
    the last system message followed by a blank line, then the contents of
    the user messages joined by blank lines; the system part and its blank
    line are left out when there is no system message or when the content
    of the last one is empty.  That payload, serialized, is the body of
    whatever request is sent.  A message of role assistant can be taken
    away without changing the text. *)
Theorem request_prompt_amended (p : Params) :
  Spec.field (payload p) "messages"
  = VArray
      [ VObject
          [ (js "role", VString (js "user"));
            (js "content",
             VArray
               [ VObject
                   [ (js "type", VString (js "text"));
                     (js "text",
                      VString (Spec.amendedPromptText (messages p))) ] ]) ] ]
  /\ (forall w req,
        In (EvFetch req) (trace (generateVertexClaudeText p w)) ->
        body req = JSON_stringify (payload p))
  /\ (forall before m after,
        messages p = before ++ m :: after ->
        role m = js "assistant" ->
        VertexClaude.promptText (messages p)
        = VertexClaude.promptText (before ++ after)).
Proof.
  split; [|split].
  - rewrite <- promptText_amended. reflexivity.
  - intros w req. apply fetch_carries_payload.
  - intros before m after Hm Hrole. rewrite Hm, !promptText_amended.
    unfold Spec.amendedPromptText.
    rewrite (lastSystem_skip before after m),
      (userContents_skip before after m);
      [reflexivity | rewrite Hrole; reflexivity | rewrite Hrole; reflexivity].
Qed.

Lemma request_prompt_amended_witness :
  VertexClaude.promptText Samples.conversation
  = js "Be terse." ++ [LF; LF] ++ js "2+2?" ++ [LF; LF] ++ js "3+3?".
Proof.
  transitivity
    (VertexClaude.promptText
       ([ {| role := js "system"; content := js "Be terse." |};
          {| role := js "user"; content := js "2+2?" |} ]
        ++ [ {| role := js "user"; content := js "3+3?" |} ])).
  - apply (proj2 (proj2 (request_prompt_amended
                           (Samples.params Samples.conversation None)))
             [ {| role := js "system"; content := js "Be terse." |};
               {| role := js "user"; content := js "2+2?" |} ]
             {| role := js "assistant"; content := js "4" |}
             [ {| role := js "user"; content := js "3+3?" |} ]).
    + reflexivity.
    + reflexivity.
  - vm_compute. reflexivity.
Defined.

(** C5.  The payload of Adapter A carries [max_tokens] equal to the
    smaller of the requested number (1024 when none is given) and 64000, so
    64000 for any request above it, and that payload, serialized, is the
    body of whatever request is sent; Adapter B hands the requested number
    to the SDK as it is. *)
Theorem max_tokens_clamped (p : Params) :
  Spec.field (payload p) "max_tokens"
  = VNumber (number_of_Z (Z.min (or_default (maxTokens p) 1024%Z) 64000))
  /\ (forall requested,
        maxTokens p = Some requested -> (64000 < requested)%Z ->
        Spec.field (payload p) "max_tokens" = VNumber (number_of_Z 64000))
  /\ (forall w req,
        In (EvFetch req) (trace (generateVertexClaudeText p w)) ->
        body req = JSON_stringify (payload p))
  /\ (forall (pb : Vertex.Params) w,
        (exists call, In (EvSdk call) (trace (Vertex.generateVertexText pb w)))
        /\ forall call,
             In (EvSdk call) (trace (Vertex.generateVertexText pb w)) ->
             maxOutputTokens call = Vertex.maxTokens pb).
Proof.
  split; [reflexivity|]. split; [|split].
  - intros requested Hreq Hgt.
    change (Spec.field (payload p) "max_tokens")
      with (VNumber (number_of_Z
                       (clampTokens (or_default (maxTokens p) 1024%Z)))).
    rewrite Hreq. unfold clampTokens, or_default.
    rewrite Z.min_r by lia. reflexivity.
  - intros w req. apply fetch_carries_payload.
  - intros pb w. rewrite generateVertexText_run. cbv zeta.
    destruct (sdkGenerateText w _) as [text|e]; cbn [trace snd In]; split;
      try (eexists; right; left; reflexivity);
      intros call H;
      repeat (destruct H as [H|H]; try discriminate H);
      try contradiction; injection H as <-; reflexivity.
Qed.

Lemma max_tokens_clamped_witness :
  Spec.field (payload (Samples.params Samples.conversation (Some 100000%Z)))
             "max_tokens"
  = VNumber (number_of_Z 64000).
Proof.
  apply (proj1 (proj2 (max_tokens_clamped
                         (Samples.params Samples.conversation
                                         (Some 100000%Z))))
           100000%Z).
  - reflexivity.
  - lia.
Defined.

(** C6.  When [VERTEX_PROJECT_ID] or [VERTEX_LOCATION] is unset or empty, a
    call of Adapter A throws its configuration error, and has neither run
    the credential command nor sent a request: it has only logged. *)
Theorem missing_configuration_fails_first (p : Params) (w : World) :
  env_truthy (env w (js "VERTEX_PROJECT_ID")) = false
  \/ env_truthy (env w (js "VERTEX_LOCATION")) = false ->
  result (generateVertexClaudeText p w)
  = Throw (mkError (js "VERTEX_PROJECT_ID and VERTEX_LOCATION environment variables must be set"))
  /\ (forall cmd, ~ In (EvExec cmd) (trace (generateVertexClaudeText p w)))
  /\ (forall req, ~ In (EvFetch req) (trace (generateVertexClaudeText p w))).
Proof.
  intros H. rewrite generate_run, (callVertex_unconfigured p w H). cbv zeta.
  split; [reflexivity|].
  split; intros x Hin; cbn [trace snd In app] in Hin;
    repeat (destruct Hin as [Hin|Hin]; try discriminate Hin);
    contradiction.
Qed.

Lemma missing_configuration_fails_first_witness :
  exists e,
    result (generateVertexClaudeText (Samples.params Samples.conversation None)
                                     Samples.noLocation)
    = Throw e.
Proof.
  eexists.
  apply (missing_configuration_fails_first
           (Samples.params Samples.conversation None) Samples.noLocation).
  right. reflexivity.
Defined.

(** C7, as stated, fails.  A credential command that exits with code 0 and
    prints nothing usable does not make [getAccessToken] fail: it returns
    the empty string. *)
Lemma credential_counterexample :
  ~ Spec.usableOutput
      (exec Samples.silentCredential (js "gcloud auth print-access-token"))
  /\ result (getAccessToken Samples.silentCredential) = Normal [].
Proof.
  split.
  - intros [_ H]. apply H. reflexivity.
  - reflexivity.
Qed.

(** C7, amended.  [getAccessToken] runs the credential command once.  When
    the command exits with a code other than 0 it fails with an error whose
    message wraps the one of the failure; when the command exits with code
    0 it returns the standard output, trimmed, whatever that is. *)
Theorem credential_amended (w : World) :
  let cmd := js "gcloud auth print-access-token" in
  trace (getAccessToken w) = [EvExec cmd]
  /\ (exit_code (exec w cmd) <> 0%Z ->
      result (getAccessToken w)
      = Throw (mkError (js "Failed to get access token: "
                          ++ message (exec_error cmd (exec w cmd)))))
  /\ (exit_code (exec w cmd) = 0%Z ->
      result (getAccessToken w) = Normal (trim (stdout (exec w cmd)))).
Proof.
  cbv zeta. rewrite getAccessToken_run. cbv zeta.
  destruct (exit_code _ =? 0)%Z eqn:E.
  - apply Z.eqb_eq in E. split; [reflexivity|]. split.
    + intros H. contradiction.
    + intros _. reflexivity.
  - apply Z.eqb_neq in E. split; [reflexivity|]. split.
    + intros _. reflexivity.
    + intros H. contradiction.
Qed.

Lemma credential_amended_witness :
  result (getAccessToken Samples.failingCredential)
  = Throw (mkError (js "Failed to get access token: Command failed: gcloud auth print-access-token"
                      ++ [LF] ++ js "ERROR: not logged in"))
  /\ result (getAccessToken (Samples.answering [])) = Normal (js "ya29.token").
Proof.
  split.
  - apply (proj1 (proj2 (credential_amended Samples.failingCredential))).
    discriminate.
  - apply (proj2 (proj2 (credential_amended (Samples.answering [])))).
    reflexivity.
Defined.

(** C9.  [streamVertexClaudeText] returns or throws exactly what
    [generateVertexClaudeText] does on the same parameters, the whole value
    at once; it only logs one more line before. *)
Theorem stream_is_generate (params : Params) (w : World) :
  result (streamVertexClaudeText params w)
  = result (generateVertexClaudeText params w)
  /\ trace (streamVertexClaudeText params w)
     = EvLog (js "info")
             (js "Streaming not implemented for Vertex AI Claude models. Using non-streaming version.")
       :: trace (generateVertexClaudeText params w).
Proof.
  unfold streamVertexClaudeText, bind, log.
  destruct (generateVertexClaudeText params w) as [r t].
  split; reflexivity.
Qed.

(** *** The examples of the specification *)

Example extract_text_field :
  extractResponse (Samples.object1 "text" (q (js "4"))) = VString (js "4").
Proof. vm_compute. reflexivity. Qed.

Example extract_last_delta :
  extractResponse Samples.twoDeltas = VString (js "4!").
Proof. vm_compute. reflexivity. Qed.

Example extract_not_json :
  extractResponse Samples.notJson = VString (js "not json").
Proof. vm_compute. reflexivity. Qed.

Example prompt_be_terse :
  VertexClaude.promptText
    [ {| role := js "system"; content := js "Be terse." |};
      {| role := js "user"; content := js "2+2?" |} ]
  = js "Be terse." ++ [LF; LF] ++ js "2+2?".
Proof. vm_compute. reflexivity. Qed.

Example clamped_payload_text :
  JSON_stringify
    (Spec.field (payload (Samples.params Samples.conversation (Some 100000%Z)))
                "max_tokens")
  = Some (js "64000").
Proof. vm_compute. reflexivity. Qed.

Example answered_call :
  generateVertexClaudeText (Samples.params Samples.conversation None)
                           (Samples.answering Samples.twoDeltas)
  = (Normal (VString (js "4!")),
     [ EvLog (js "info")
             (js "Generating text with Vertex AI Claude model: claude-3-7-sonnet@20250219");
       EvExec (js "gcloud auth print-access-token");
       EvFetch
         (request (js "us-central1") (js "my-project") (js "ya29.token")
                  (Samples.params Samples.conversation None)) ]).
Proof. vm_compute. reflexivity. Qed.

(** *** One response per path of the chain *)

Example path_a_delta_text :
  extractResponse
    (Samples.object1 "delta" (Samples.object1 "text" (q (js "a")))
     ++ js " ")
  = VString (js "a").
Proof. vm_compute. reflexivity. Qed.

Example path_b_content_text :
  extractResponse
    (Samples.object1 "content" (Samples.object1 "text" (q (js "b"))))
  = VString (js "b").
Proof. vm_compute. reflexivity. Qed.

Example path_c_content_list :
  extractResponse Samples.contentList = VString (js "hi").
Proof. vm_compute. reflexivity. Qed.

Example path_d_message_content :
  extractResponse
    (Samples.object1 "message" (Samples.object1 "content" (q (js "d"))))
  = VString (js "d").
Proof. vm_compute. reflexivity. Qed.

Example path_f_text :
  extractResponse (Samples.object1 "text" (q (js "f"))) = VString (js "f").
Proof. vm_compute. reflexivity. Qed.

Example path_g_pattern :
  extractResponse
    (Samples.object1 "output" (Samples.object1 "text" (q (js "g"))))
  = VString (js "g").
Proof. vm_compute. reflexivity. Qed.

Example path_h_serialized :
  extractResponse (js "{ " ++ q (js "n") ++ js " : 1.50 }")
  = VString (js "{" ++ q (js "n") ++ js ":1.5}").
Proof. vm_compute. reflexivity. Qed.

(** The four falsy JSON values, each as the only line of a response. *)
Example falsy_literals :
  map extractResponse [js "null"; js "false"; js "0"; q []]
  = map VString [js "null"; js "false"; js "0"; q []].
Proof. vm_compute. reflexivity. Qed.

(** ** Further properties of the adapters *)

(** *** Trimming *)

Lemma trimStart_idempotent (s : jsstring) :
  trimStart (trimStart s) = trimStart s.
Proof.
  induction s as [|c s IH]; [reflexivity|].
  simpl. destruct (is_js_space c) eqn:Hc; [exact IH|].
  simpl. rewrite Hc. reflexivity.
Qed.

(** A string is clean at its head when it is empty or starts with a
    character that is not white space. *)
Lemma trimStart_fixed (s : jsstring) :
  match s with [] => True | c :: _ => is_js_space c = false end ->
  trimStart s = s.
Proof.
  destruct s as [|c s]; [reflexivity|].
  simpl. intros H. rewrite H. reflexivity.
Qed.

Lemma trimStart_head (s : jsstring) :
  match trimStart s with [] => True | c :: _ => is_js_space c = false end.
Proof.
  induction s as [|c s IH]; [exact I|].
  simpl. destruct (is_js_space c) eqn:Hc; [exact IH|].
  exact Hc.
Qed.

Lemma trim_idempotent (s : jsstring) : trim (trim s) = trim s.
Proof.
  unfold trim, trimEnd.
  set (x := trimStart s).
  set (y := trimStart (rev x)).
  assert (Hy : trimStart (rev y) = rev y).
  { apply trimStart_fixed.
    destruct (trimStart_split (rev x)) as [pre [Hsplit _]].
    fold y in Hsplit.
    assert (Hx : x = rev y ++ rev pre).
    { rewrite <- rev_app_distr, <- Hsplit, rev_involutive. reflexivity. }
    pose proof (trimStart_head s) as Hhead. fold x in Hhead.
    destruct (rev y) as [|c t]; [exact I|].
    rewrite Hx in Hhead. exact Hhead. }
  rewrite Hy, rev_involutive. unfold y.
  rewrite trimStart_idempotent. reflexivity.
Qed.

(** *** Every path of a call of Adapter A *)

Ltac call_paths p w :=
  rewrite (generate_run p w); cbv zeta;
  destruct (env_truthy (env w (js "VERTEX_PROJECT_ID"))) eqn:Hproject;
  [ destruct (env_truthy (env w (js "VERTEX_LOCATION"))) eqn:Hlocation;
    [ rewrite (callVertex_configured p w Hproject Hlocation); cbv zeta;
      destruct (exit_code (exec w (js "gcloud auth print-access-token"))
                =? 0)%Z eqn:Hexit;
      [ destruct (fetch w _) as [response|rejection] eqn:Hfetch;
        [ destruct (ok response) eqn:Hok | ]
      | ]
    | rewrite (callVertex_unconfigured p w (or_intror Hlocation)) ]
  | rewrite (callVertex_unconfigured p w (or_introl Hproject)) ].

Ltac in_trace H :=
  cbn [trace snd In app] in H;
  repeat (destruct H as [H|H]; try discriminate H);
  try contradiction.

(** X1.  With the configuration set and a token obtained, an answer whose
    status is outside 200..299 makes the call throw an error that carries
    the status and the body of the answer; the body is not looked into. *)
Theorem http_error_is_thrown (p : Params) (w : World) (r : Response) :
  env_truthy (env w (js "VERTEX_PROJECT_ID")) = true ->
  env_truthy (env w (js "VERTEX_LOCATION")) = true ->
  exit_code (exec w (js "gcloud auth print-access-token")) = 0%Z ->
  fetch w (request (env_text (env w (js "VERTEX_LOCATION")))
                   (env_text (env w (js "VERTEX_PROJECT_ID")))
                   (trim (stdout (exec w (js "gcloud auth print-access-token"))))
                   p)
  = Responded r ->
  (status r < 200 \/ 299 < status r) ->
  result (generateVertexClaudeText p w)
  = Throw (mkError (js "Vertex AI API error (" ++ string_of_N (status r)
                      ++ js "): " ++ responseBody r)).
Proof.
  intros Hp Hl Hexit Hfetch Hstatus.
  assert (Hok : ok r = false).
  { unfold ok. destruct Hstatus as [H|H].
    - apply N.leb_gt in H. rewrite H. reflexivity.
    - apply N.leb_gt in H. rewrite H. apply andb_false_r. }
  rewrite generate_run, (callVertex_configured p w Hp Hl). cbv zeta.
  rewrite Hexit, Hfetch, Hok. reflexivity.
Qed.

Lemma http_error_is_thrown_witness :
  result (generateVertexClaudeText (Samples.params Samples.conversation None)
                                   Samples.overQuota)
  = Throw (mkError (js "Vertex AI API error (429): Quota exceeded")).
Proof.
  apply (http_error_is_thrown (Samples.params Samples.conversation None)
           Samples.overQuota
           {| status := 429; responseBody := js "Quota exceeded" |}).
  - reflexivity.
  - reflexivity.
  - reflexivity.
  - reflexivity.
  - right. reflexivity.
Defined.

(** X2.  With the configuration set, a credential command that exits with a
    code other than 0 makes the call throw the wrapped credential error,
    which quotes the command and its standard error, and no request is
    sent. *)
Theorem credential_failure_sends_nothing (p : Params) (w : World) :
  env_truthy (env w (js "VERTEX_PROJECT_ID")) = true ->
  env_truthy (env w (js "VERTEX_LOCATION")) = true ->
  exit_code (exec w (js "gcloud auth print-access-token")) <> 0%Z ->
  result (generateVertexClaudeText p w)
  = Throw (mkError
             (js "Failed to get access token: Command failed: gcloud auth print-access-token"
                ++ [LF]
                ++ stderr (exec w (js "gcloud auth print-access-token"))))
  /\ forall req, ~ In (EvFetch req) (trace (generateVertexClaudeText p w)).
Proof.
  intros Hp Hl Hexit. apply Z.eqb_neq in Hexit.
  rewrite generate_run, (callVertex_configured p w Hp Hl). cbv zeta.
  rewrite Hexit. split; [reflexivity|].
  intros req H. in_trace H.
Qed.

Lemma credential_failure_sends_nothing_witness :
  result (generateVertexClaudeText (Samples.params Samples.conversation None)
                                   Samples.failingCredential)
  = Throw (mkError
             (js "Failed to get access token: Command failed: gcloud auth print-access-token"
                ++ [LF] ++ js "ERROR: not logged in")).
Proof.
  apply (credential_failure_sends_nothing
           (Samples.params Samples.conversation None)
           Samples.failingCredential).
  - reflexivity.
  - reflexivity.
  - discriminate.
Defined.

(** X3.  With the configuration set and a token obtained, a request that
    the network rejects makes the call throw the very error of the
    rejection, unwrapped. *)
Theorem network_error_is_rethrown (p : Params) (w : World) (e : error) :
  env_truthy (env w (js "VERTEX_PROJECT_ID")) = true ->
  env_truthy (env w (js "VERTEX_LOCATION")) = true ->
  exit_code (exec w (js "gcloud auth print-access-token")) = 0%Z ->
  fetch w (request (env_text (env w (js "VERTEX_LOCATION")))
                   (env_text (env w (js "VERTEX_PROJECT_ID")))
                   (trim (stdout (exec w (js "gcloud auth print-access-token"))))
                   p)
  = Rejected e ->
  result (generateVertexClaudeText p w) = Throw e.
Proof.
  intros Hp Hl Hexit Hfetch.
  rewrite generate_run, (callVertex_configured p w Hp Hl). cbv zeta.
  rewrite Hexit, Hfetch. reflexivity.
Qed.

Lemma network_error_is_rethrown_witness :
  result (generateVertexClaudeText (Samples.params Samples.conversation None)
                                   Samples.offline)
  = Throw (Error (js "TypeError") (js "fetch failed")).
Proof.
  apply (network_error_is_rethrown (Samples.params Samples.conversation None)
           Samples.offline).
  - reflexivity.
  - reflexivity.
  - reflexivity.
  - reflexivity.
Defined.

(** X4.  A call logs its info line first.  When it returns it has logged
    nothing at level error; when it throws it has logged exactly one line at
    level error, which names the model and quotes the message of the error
    thrown. *)
Theorem one_error_line_per_failure (p : Params) (w : World) :
  let model := or_default (modelId p) DEFAULT_MODEL in
  hd_error (trace (generateVertexClaudeText p w))
  = Some (EvLog (js "info")
                (js "Generating text with Vertex AI Claude model: " ++ model))
  /\ Trace.errorLogs (trace (generateVertexClaudeText p w))
     = match result (generateVertexClaudeText p w) with
       | Normal _ => []
       | Throw e =>
           [EvLog (js "error")
                  (js "Error generating text with Vertex AI Claude (" ++ model
                     ++ js "): " ++ message e)]
       end.
Proof.
  cbv zeta. call_paths p w; split; reflexivity.
Qed.

(** X5.  A call runs the credential command at most once and sends at most
    one request, and never sends a request without having run the command
    before: what it does outside is nothing, or the command, or the command
    then one request. *)
Theorem effects_in_order (p : Params) (w : World) :
  let cmd := js "gcloud auth print-access-token" in
  Trace.outside (trace (generateVertexClaudeText p w)) = []
  \/ Trace.outside (trace (generateVertexClaudeText p w)) = [EvExec cmd]
  \/ exists req,
       Trace.outside (trace (generateVertexClaudeText p w))
       = [EvExec cmd; EvFetch req].
Proof.
  cbv zeta. call_paths p w;
    first [ left; reflexivity
          | right; left; reflexivity
          | right; right; eexists; reflexivity ].
Qed.

(** X6.  Whatever request is sent is a POST to the streamRawPredict
    endpoint of the configured location and project, for the model asked
    for or the default one, with a JSON content type and a bearer token
    that has no white space around it; both variables are then set. *)
Theorem request_shape (p : Params) (w : World) (req : Request) :
  In (EvFetch req) (trace (generateVertexClaudeText p w)) ->
  env_truthy (env w (js "VERTEX_PROJECT_ID")) = true
  /\ env_truthy (env w (js "VERTEX_LOCATION")) = true
  /\ method req = js "POST"
  /\ url req
     = js "https://" ++ env_text (env w (js "VERTEX_LOCATION"))
       ++ js "-aiplatform.googleapis.com/v1/projects/"
       ++ env_text (env w (js "VERTEX_PROJECT_ID"))
       ++ js "/locations/" ++ env_text (env w (js "VERTEX_LOCATION"))
       ++ js "/publishers/anthropic/models/"
       ++ or_default (modelId p) DEFAULT_MODEL ++ js ":streamRawPredict"
  /\ exists token,
       Trace.trimmed token
       /\ headers req
          = [ (js "Authorization", js "Bearer " ++ token);
              (js "Content-Type", js "application/json; charset=utf-8") ].
Proof.
  assert (Hshape :
    forall token,
      Trace.trimmed (trim token) ->
      req = request (env_text (env w (js "VERTEX_LOCATION")))
                    (env_text (env w (js "VERTEX_PROJECT_ID")))
                    (trim token) p ->
      method req = js "POST"
      /\ url req
         = js "https://" ++ env_text (env w (js "VERTEX_LOCATION"))
           ++ js "-aiplatform.googleapis.com/v1/projects/"
           ++ env_text (env w (js "VERTEX_PROJECT_ID"))
           ++ js "/locations/" ++ env_text (env w (js "VERTEX_LOCATION"))
           ++ js "/publishers/anthropic/models/"
           ++ or_default (modelId p) DEFAULT_MODEL ++ js ":streamRawPredict"
      /\ exists token',
           Trace.trimmed token'
           /\ headers req
              = [ (js "Authorization", js "Bearer " ++ token');
                  (js "Content-Type", js "application/json; charset=utf-8") ]).
  { intros token Htrim ->. split; [reflexivity|]. split; [reflexivity|].
    exists (trim token). split; [exact Htrim | reflexivity]. }
  revert Hshape. call_paths p w; intros Hshape H; in_trace H;
    injection H as H; symmetry in H;
    (split; [reflexivity|]); (split; [reflexivity|]);
    exact (Hshape _ (trim_idempotent _) H).
Qed.

Lemma request_shape_witness :
  url (request (js "us-central1") (js "my-project") (js "ya29.token")
               (Samples.params Samples.conversation None))
  = js "https://us-central1-aiplatform.googleapis.com/v1/projects/my-project/locations/us-central1/publishers/anthropic/models/claude-3-7-sonnet@20250219:streamRawPredict".
Proof.
  apply (proj1 (proj2 (proj2 (proj2
    (request_shape (Samples.params Samples.conversation None)
       (Samples.answering Samples.twoDeltas)
       (request (js "us-central1") (js "my-project") (js "ya29.token")
                (Samples.params Samples.conversation None))
       ltac:(vm_compute; right; right; left; reflexivity)))))).
Defined.

(** X7.  A call that returns has run the command, sent one request, got an
    answer of status 200..299 and returns what the extraction makes of the
    body of that answer; it has done nothing else but log its info line. *)
Theorem normal_return_inversion (p : Params) (w : World) (v : value) :
  result (generateVertexClaudeText p w) = Normal v ->
  let cmd := js "gcloud auth print-access-token" in
  let req := request (env_text (env w (js "VERTEX_LOCATION")))
                     (env_text (env w (js "VERTEX_PROJECT_ID")))
                     (trim (stdout (exec w cmd))) p in
  exists r,
    fetch w req = Responded r
    /\ (200 <= status r <= 299)
    /\ v = extractResponse (responseBody r)
    /\ trace (generateVertexClaudeText p w)
       = [ EvLog (js "info")
                 (js "Generating text with Vertex AI Claude model: "
                    ++ or_default (modelId p) DEFAULT_MODEL);
           EvExec cmd; EvFetch req ].
Proof.
  cbv zeta. revert v. call_paths p w; intros v H;
    cbn [result fst] in H; try discriminate H.
  injection H as <-. exists response.
  split; [reflexivity|]. split; [|split; reflexivity].
  unfold ok in Hok. apply andb_true_iff in Hok. destruct Hok as [Hlo Hhi].
  apply N.leb_le in Hlo, Hhi. split; assumption.
Qed.

Lemma normal_return_inversion_witness :
  exists r,
    fetch (Samples.answering Samples.twoDeltas)
          (request (js "us-central1") (js "my-project") (js "ya29.token")
                   (Samples.params Samples.conversation None))
    = Responded r
    /\ VString (js "4!") = extractResponse (responseBody r).
Proof.
  destruct (normal_return_inversion
              (Samples.params Samples.conversation None)
              (Samples.answering Samples.twoDeltas)
              (VString (js "4!")) ltac:(vm_compute; reflexivity))
    as [r [Hfetch [_ [Hv _]]]].
  exists r. split; [exact Hfetch | exact Hv].
Defined.

(** X8.  The token that [getAccessToken] returns has no white space around
    it, and is returned only when the command exited with code 0. *)
Theorem token_is_trimmed (w : World) (token : jsstring) :
  result (getAccessToken w) = Normal token ->
  Trace.trimmed token
  /\ exit_code (exec w (js "gcloud auth print-access-token")) = 0%Z
  /\ token = trim (stdout (exec w (js "gcloud auth print-access-token"))).
Proof.
  rewrite getAccessToken_run. cbv zeta.
  destruct (exit_code _ =? 0)%Z eqn:E; cbn [result fst]; [|discriminate].
  intros H. injection H as <-. apply Z.eqb_eq in E.
  split; [apply trim_idempotent|]. split; [exact E | reflexivity].
Qed.

Lemma token_is_trimmed_witness : Trace.trimmed (js "ya29.token").
Proof.
  apply (token_is_trimmed (Samples.answering []) (js "ya29.token")).
  reflexivity.
Defined.

(** *** Further properties of the extraction *)

Lemma serializedFallback_text (v : value) :
  truthy v = true -> Spec.isText (Spec.serializedFallback v) = true.
Proof.
  intros Hv. unfold Spec.serializedFallback.
  destruct (JSON_stringify v) as [jsonStr|] eqn:Hs.
  - destruct (match_text_regex jsonStr) as [[whole group1]|]; reflexivity.
  - destruct v; try discriminate. destruct b; discriminate.
Qed.

(** X9.  The extraction returns a string whenever none of [delta.text],
    [content.text], [content[0].text], [message.content] and [text] of the
    last valid JSON holds a truthy value that is not a string. *)
Theorem text_result_condition (responseText : jsstring) :
  let v := lastValidJsonOf responseText in
  (forall x,
      In x [ Spec.pathA v; Spec.pathB v; Spec.pathC v;
             Spec.field (Spec.field v "message") "content"; Spec.pathF v ] ->
      truthy x = true -> Spec.isText x = true) ->
  Spec.isText (extractResponse responseText) = true.
Proof.
  cbv zeta. intros Hpaths.
  unfold extractResponse, tryExtract.
  destruct (truthy (lastValidJsonOf responseText)) eqn:Hv; [|reflexivity].
  set (v := lastValidJsonOf responseText) in *.
  assert (Hr : exists r, Spec.amendedExtract responseText v = Some r
                         /\ Spec.isText r = true).
  { unfold Spec.amendedExtract.
    destruct (truthy (Spec.pathA v)) eqn:Ha.
    { eexists. split; [reflexivity|].
      exact (Hpaths _ (or_introl eq_refl) Ha). }
    destruct (truthy (Spec.pathB v)) eqn:Hb.
    { eexists. split; [reflexivity|].
      exact (Hpaths _ (or_intror (or_introl eq_refl)) Hb). }
    destruct (Spec.nullHead (Spec.field v "content")).
    { eexists. split; reflexivity. }
    destruct (truthy (Spec.pathC v)) eqn:Hc.
    { eexists. split; [reflexivity|].
      exact (Hpaths _ (or_intror (or_intror (or_introl eq_refl))) Hc). }
    destruct (truthy (Spec.field (Spec.field v "message") "content")) eqn:Hm.
    { pose proof (Hpaths _ (or_intror (or_intror (or_intror
                                (or_introl eq_refl)))) Hm) as Ht.
      rewrite Ht. eexists. split; [reflexivity | exact Ht]. }
    destruct (truthy (Spec.pathF v)) eqn:Hf.
    { eexists. split; [reflexivity|].
      exact (Hpaths _ (or_intror (or_intror (or_intror (or_intror
                         (or_introl eq_refl))))) Hf). }
    eexists. split; [reflexivity|]. apply serializedFallback_text. exact Hv. }
  destruct Hr as [r [Hr Htext]].
  rewrite (extractFrom_amended responseText v r Hv Hr). exact Htext.
Qed.

Lemma text_result_condition_witness :
  Spec.isText (extractResponse Samples.contentList) = true.
Proof.
  apply (text_result_condition Samples.contentList).
  intros x Hx Hxt.
  cbn [In] in Hx.
  repeat (destruct Hx as [Hx|Hx];
          [subst x; vm_compute in Hxt; try discriminate Hxt;
           vm_compute; reflexivity |]).
  contradiction.
Defined.

Lemma trimStart_spaces (s : jsstring) :
  forallb is_js_space s = true -> trimStart s = [].
Proof.
  induction s as [|c s IH]; [reflexivity|].
  simpl. intros H. apply andb_true_iff in H. destruct H as [Hc Hs].
  rewrite Hc. exact (IH Hs).
Qed.

(** X10.  A response body that is empty, or made of white space only, is
    returned as it is. *)
Theorem blank_body_returned (responseText : jsstring) :
  forallb is_js_space responseText = true ->
  extractResponse responseText = VString responseText.
Proof.
  intros H. unfold extractResponse, tryExtract, lastValidJsonOf,
    responseLines, trim.
  rewrite (trimStart_spaces _ H). reflexivity.
Qed.

Lemma blank_body_returned_witness :
  extractResponse [LF; 32; LF] = VString [LF; 32; LF].
Proof.
  apply (blank_body_returned [LF; 32; LF]). reflexivity.
Defined.

Lemma take_non_quote_run (s run rest : jsstring) :
  take_non_quote s = (run, rest) -> ~ In QUOTE run.
Proof.
  revert run rest. induction s as [|c s IH]; intros run rest; simpl.
  - intros H. injection H as <- _. intros [].
  - destruct (c =? QUOTE) eqn:Hc.
    + intros H. injection H as <- _. intros [].
    + destruct (take_non_quote s) as [run' rest'].
      intros H. injection H as <- _. intros [Hin|Hin].
      * subst c. rewrite N.eqb_refl in Hc. discriminate.
      * exact (IH _ _ eq_refl Hin).
Qed.

Lemma match_text_regex_no_quote (s whole group1 : jsstring) :
  match_text_regex s = Some (whole, group1) -> ~ In QUOTE group1.
Proof.
  induction s as [|c s IH]; simpl.
  - unfold match_here. simpl. discriminate.
  - destruct (match_here (c :: s)) as [[w g]|] eqn:Hm; [|exact IH].
    intros H. injection H as _ Hg. subst g.
    unfold match_here in Hm.
    destruct (strip_prefix text_pattern_head (c :: s)) as [tail|];
      [|discriminate].
    destruct (take_non_quote tail) as [run rest] eqn:Ht.
    destruct run as [|c1 run]; [discriminate|].
    destruct rest as [|c2 rest]; [discriminate|].
    injection Hm as _ Hg. subst group1.
    exact (take_non_quote_run _ _ _ Ht).
Qed.

(** X11.  When the text pattern matches in the serialized object, the
    fallback returns its capture, which is not empty and holds no double
    quote: a text that contains a quote is cut before it. *)
Theorem pattern_capture_has_no_quote (v : value)
  (jsonStr whole group1 : jsstring) :
  JSON_stringify v = Some jsonStr ->
  match_text_regex jsonStr = Some (whole, group1) ->
  extractFallback v = Normal (VString group1)
  /\ group1 <> []
  /\ ~ In QUOTE group1.
Proof.
  intros Hs Hm. unfold extractFallback. rewrite Hs, Hm.
  pose proof (match_text_regex_capture _ _ _ Hm) as Hne.
  rewrite Hne. split; [reflexivity|]. split.
  - intros ->. discriminate Hne.
  - exact (match_text_regex_no_quote _ _ _ Hm).
Qed.

Lemma pattern_capture_has_no_quote_witness :
  extractFallback (lastValidJsonOf Samples.quotedText)
  = Normal (VString (js "say \")).
Proof.
  apply (pattern_capture_has_no_quote
           (lastValidJsonOf Samples.quotedText)
           Samples.quotedText
           (q (js "text") ++ js ":" ++ q (js "say \"))
           (js "say \")).
  - vm_compute. reflexivity.
  - vm_compute. reflexivity.
Defined.

(** *** Object generation *)

Lemma object_run (syntaxMessage : jsstring -> jsstring) (p : Params)
  (w : World) :
  generateVertexClaudeObject syntaxMessage p w
  = let start :=
      EvLog (js "info")
            (js "Object generation not implemented for Vertex AI Claude models. Using text generation.") in
    match generateVertexClaudeText p w with
    | (Normal text, t) =>
        match JSON_parse (ToString text) with
        | Some v => (Normal v, start :: t)
        | None =>
            (Throw (mkError (js "Failed to generate object: "
                               ++ syntaxMessage (ToString text))),
             start :: t
             ++ [EvLog (js "error")
                       (js "Failed to parse Claude response as JSON: "
                          ++ syntaxMessage (ToString text))])
        end
    | (Throw e, t) => (Throw e, start :: t)
    end.
Proof.
  unfold generateVertexClaudeObject, parseOrThrow, bind, log, try_catch,
    throw, ret. cbv zeta.
  destruct (generateVertexClaudeText p w) as [[text|e] t]; [|reflexivity].
  destruct (JSON_parse (ToString text)) as [v|].
  - cbn [app]. rewrite app_nil_r. reflexivity.
  - reflexivity.
Qed.

(** X12.  When the text generation fails, object generation fails with the
    very same error: it does not wrap it, and adds nothing to what the text
    generation did but its own info line in front. *)
Theorem object_propagates_text_failure
  (syntaxMessage : jsstring -> jsstring) (p : Params) (w : World)
  (e : error) :
  result (generateVertexClaudeText p w) = Throw e ->
  result (generateVertexClaudeObject syntaxMessage p w) = Throw e
  /\ trace (generateVertexClaudeObject syntaxMessage p w)
     = EvLog (js "info")
             (js "Object generation not implemented for Vertex AI Claude models. Using text generation.")
       :: trace (generateVertexClaudeText p w).
Proof.
  rewrite object_run. cbv zeta.
  destruct (generateVertexClaudeText p w) as [[text|e'] t];
    cbn [result fst]; [discriminate|].
  intros H. injection H as ->. split; reflexivity.
Qed.

Lemma object_propagates_text_failure_witness :
  result (generateVertexClaudeObject Samples.engineMessage
            (Samples.params Samples.conversation None) Samples.overQuota)
  = Throw (mkError (js "Vertex AI API error (429): Quota exceeded")).
Proof.
  apply (object_propagates_text_failure Samples.engineMessage
           (Samples.params Samples.conversation None) Samples.overQuota).
  vm_compute. reflexivity.
Defined.

(** X13.  When the text generation returns a value whose text (the value
    itself when it is a string) is JSON, object generation returns the value
    of that JSON, and adds nothing to what the text generation did but its
    own info line in front. *)
Theorem object_is_parsed_text
  (syntaxMessage : jsstring -> jsstring) (p : Params) (w : World)
  (text v : value) :
  result (generateVertexClaudeText p w) = Normal text ->
  JSON_parse (ToString text) = Some v ->
  result (generateVertexClaudeObject syntaxMessage p w) = Normal v
  /\ trace (generateVertexClaudeObject syntaxMessage p w)
     = EvLog (js "info")
             (js "Object generation not implemented for Vertex AI Claude models. Using text generation.")
       :: trace (generateVertexClaudeText p w).
Proof.
  rewrite object_run. cbv zeta.
  destruct (generateVertexClaudeText p w) as [[text'|e] t];
    cbn [result fst]; [|discriminate].
  intros H. injection H as ->. intros Hv. rewrite Hv.
  split; reflexivity.
Qed.

Lemma object_is_parsed_text_witness :
  result (generateVertexClaudeObject Samples.engineMessage
            (Samples.params Samples.conversation None)
            (Samples.answering
               (Samples.object1 "text" (q (js "[1, true]")))))
  = Normal (VArray [VNumber (Num 1 0); VBool true]).
Proof.
  apply (object_is_parsed_text Samples.engineMessage
           (Samples.params Samples.conversation None)
           (Samples.answering (Samples.object1 "text" (q (js "[1, true]"))))
           (VString (js "[1, true]"))).
  - vm_compute. reflexivity.
  - vm_compute. reflexivity.
Defined.

(** X14.  When the text generation returns a value whose text is not JSON,
    object generation fails with an error whose message is that of the
    syntax error behind a fixed prefix, after logging one line at level
    error with the same message behind another prefix. *)
Theorem object_parse_failure
  (syntaxMessage : jsstring -> jsstring) (p : Params) (w : World)
  (text : value) :
  result (generateVertexClaudeText p w) = Normal text ->
  JSON_parse (ToString text) = None ->
  result (generateVertexClaudeObject syntaxMessage p w)
  = Throw (mkError (js "Failed to generate object: "
                      ++ syntaxMessage (ToString text)))
  /\ trace (generateVertexClaudeObject syntaxMessage p w)
     = EvLog (js "info")
             (js "Object generation not implemented for Vertex AI Claude models. Using text generation.")
       :: trace (generateVertexClaudeText p w)
       ++ [EvLog (js "error")
                 (js "Failed to parse Claude response as JSON: "
                    ++ syntaxMessage (ToString text))].
Proof.
  rewrite object_run. cbv zeta.
  destruct (generateVertexClaudeText p w) as [[text'|e] t];
    cbn [result fst]; [|discriminate].
  intros H. injection H as ->. intros Hv. rewrite Hv.
  split; reflexivity.
Qed.

Lemma object_parse_failure_witness :
  result (generateVertexClaudeObject Samples.engineMessage
            (Samples.params Samples.conversation None)
            (Samples.answering Samples.notJson))
  = Throw (mkError (js "Failed to generate object: Unexpected token in JSON: not json")).
Proof.
  apply (object_parse_failure Samples.engineMessage
           (Samples.params Samples.conversation None)
           (Samples.answering Samples.notJson)
           (VString (js "not json"))).
  - vm_compute. reflexivity.
  - vm_compute. reflexivity.
Defined.

(** X15.  When no single line of an answer of status 200..299 is JSON but
    the body as a whole is, as with an object printed over several lines,
    object generation returns the value of the whole body. *)
Theorem object_from_multiline_body
  (syntaxMessage : jsstring -> jsstring) (p : Params) (w : World)
  (r : Response) (v : value) :
  env_truthy (env w (js "VERTEX_PROJECT_ID")) = true ->
  env_truthy (env w (js "VERTEX_LOCATION")) = true ->
  exit_code (exec w (js "gcloud auth print-access-token")) = 0%Z ->
  (forall req, fetch w req = Responded r) ->
  ok r = true ->
  Forall (fun l => JSON_parse l = None) (responseLines (responseBody r)) ->
  JSON_parse (responseBody r) = Some v ->
  result (generateVertexClaudeObject syntaxMessage p w) = Normal v.
Proof.
  intros Hp Hl Hexit Hfetch Hok Hlines Hv.
  pose proof (generate_answered p w r Hp Hl Hexit Hfetch Hok) as Htext.
  assert (Hraw : extractResponse (responseBody r) = VString (responseBody r)).
  { unfold extractResponse, tryExtract, lastValidJsonOf.
    rewrite (scan_unparsed _ _ Hlines). reflexivity. }
  rewrite Hraw in Htext.
  rewrite object_run. cbv zeta.
  destruct (generateVertexClaudeText p w) as [[text|e] t];
    cbn [result fst] in Htext; [|discriminate].
  injection Htext as ->. cbn [ToString]. rewrite Hv. reflexivity.
Qed.

Lemma object_from_multiline_body_witness :
  result (generateVertexClaudeObject Samples.engineMessage
            (Samples.params Samples.conversation None)
            (Samples.answering Samples.prettyBody))
  = Normal (VObject [(js "a", VNumber (Num 1 0))]).
Proof.
  apply (object_from_multiline_body Samples.engineMessage
           (Samples.params Samples.conversation None)
           (Samples.answering Samples.prettyBody)
           {| status := 200; responseBody := Samples.prettyBody |}).
  - reflexivity.
  - reflexivity.
  - reflexivity.
  - intros req. reflexivity.
  - reflexivity.
  - replace (responseLines
               (responseBody
                  {| status := 200; responseBody := Samples.prettyBody |}))
      with [js "{"; q (js "a") ++ js ": 1"; js "}"]
      by (vm_compute; reflexivity).
    repeat (constructor; [vm_compute; reflexivity|]). constructor.
  - vm_compute. reflexivity.
Defined.



(** *** Adapter B *)

(** X17.  Whatever the environment, a call of Adapter B makes exactly one
    SDK call and nothing else outside: it runs no command and sends no
    request of its own.  The call names the project and the location of
    the environment, or the placeholders [default-project] and
    [us-central1] for a variable that is unset or empty, and carries the
    messages as they are, the model and the temperature asked for or their
    defaults. *)
Theorem adapter_b_single_call (p : Vertex.Params) (w : World) :
  exists call,
    Trace.outside (trace (Vertex.generateVertexText p w)) = [EvSdk call]
    /\ project call
       = (if env_truthy (env w (js "VERTEX_PROJECT_ID"))
          then env_text (env w (js "VERTEX_PROJECT_ID"))
          else js "default-project")
    /\ sdkLocation call
       = (if env_truthy (env w (js "VERTEX_LOCATION"))
          then env_text (env w (js "VERTEX_LOCATION"))
          else js "us-central1")
    /\ model call = or_default (Vertex.modelId p) Vertex.DEFAULT_MODEL
    /\ sdkMessages call = Vertex.messages p
    /\ sdkTemperature call
       = or_default (Vertex.temperature p) Vertex.DEFAULT_TEMPERATURE.
Proof.
  rewrite generateVertexText_run. cbv zeta.
  destruct (sdkGenerateText w _) as [text|e];
    eexists; (split; [reflexivity|]); repeat split; reflexivity.
Qed.

(** X18.  A call of Adapter B returns the text of the SDK as it is, or
    throws the very error of the SDK after logging exactly one line at level
    error that quotes its message; it logs no error line when it returns. *)
Theorem adapter_b_passes_through (p : Vertex.Params) (w : World) :
  exists call,
    In (EvSdk call) (trace (Vertex.generateVertexText p w))
    /\ result (Vertex.generateVertexText p w) = sdkGenerateText w call
    /\ Trace.errorLogs (trace (Vertex.generateVertexText p w))
       = match sdkGenerateText w call with
         | Normal _ => []
         | Throw e =>
             [EvLog (js "error")
                    (js "Error generating text with Vertex AI ("
                       ++ or_default (Vertex.modelId p) Vertex.DEFAULT_MODEL
                       ++ js "): " ++ message e)]
         end.
Proof.
  rewrite generateVertexText_run. cbv zeta.
  match goal with
  | |- context [sdkGenerateText w ?c] => exists c
  end.
  destruct (sdkGenerateText w _) as [text|e];
    (split; [right; left; reflexivity|]); split; reflexivity.
Qed.

(** *** Further properties of the request and of the lines *)

Lemma str_eqb_refl (a : jsstring) : str_eqb a a = true.
Proof.
  induction a as [|x a IH]; [reflexivity|].
  simpl. rewrite N.eqb_refl. exact IH.
Qed.

Lemma str_eqb_neq (a b : jsstring) : a <> b -> str_eqb a b = false.
Proof.
  intros H. destruct (str_eqb a b) eqn:E; [|reflexivity].
  apply str_eqb_eq in E. contradiction.
Qed.

(** X19.  A message whose role is neither exactly [system] nor exactly
    [user], whatever else it is, can be taken away from the conversation
    without changing the text of the request, hence without changing the
    payload. *)
Theorem other_roles_are_ignored (p p' : Params)
  (before after : list Message) (m : Message) :
  role m <> js "system" ->
  role m <> js "user" ->
  messages p = before ++ m :: after ->
  messages p' = before ++ after ->
  modelId p' = modelId p ->
  temperature p' = temperature p ->
  maxTokens p' = maxTokens p ->
  VertexClaude.promptText (messages p') = VertexClaude.promptText (messages p)
  /\ payload p' = payload p.
Proof.
  intros Hsys Huser Hm Hm' Hmodel Htemp Htok.
  assert (Htext : VertexClaude.promptText (messages p')
                  = VertexClaude.promptText (messages p)).
  { rewrite Hm, Hm', !promptText_amended. unfold Spec.amendedPromptText.
    rewrite (lastSystem_skip before after m (str_eqb_neq _ _ Hsys)),
      (userContents_skip before after m (str_eqb_neq _ _ Huser)).
    reflexivity. }
  split; [exact Htext|].
  unfold payload. rewrite Htext, Htemp, Htok. reflexivity.
Qed.

Lemma other_roles_are_ignored_witness :
  payload (Samples.params
             [ {| role := js "user"; content := js "2+2?" |} ] None)
  = payload (Samples.params
               [ {| role := js "System"; content := js "Be terse." |};
                 {| role := js "user"; content := js "2+2?" |} ] None).
Proof.
  apply (other_roles_are_ignored
           (Samples.params
              [ {| role := js "System"; content := js "Be terse." |};
                {| role := js "user"; content := js "2+2?" |} ] None)
           (Samples.params
              [ {| role := js "user"; content := js "2+2?" |} ] None)
           [] [ {| role := js "user"; content := js "2+2?" |} ]
           {| role := js "System"; content := js "Be terse." |}).
  - discriminate.
  - discriminate.
  - reflexivity.
  - reflexivity.
  - reflexivity.
  - reflexivity.
  - reflexivity.
Defined.

Lemma trimStart_app_spaces (pre s : jsstring) :
  forallb is_js_space pre = true -> trimStart (pre ++ s) = trimStart s.
Proof.
  induction pre as [|c pre IH]; [reflexivity|].
  simpl. intros H. apply andb_true_iff in H. destruct H as [Hc Hpre].
  rewrite Hc. exact (IH Hpre).
Qed.

Lemma trimStart_app (s t : jsstring) :
  trimStart s <> [] -> trimStart (s ++ t) = trimStart s ++ t.
Proof.
  induction s as [|c s IH]; [intros H; contradiction|].
  simpl. destruct (is_js_space c); [exact IH | reflexivity].
Qed.

Lemma trim_padding (pre s post : jsstring) :
  forallb is_js_space pre = true ->
  forallb is_js_space post = true ->
  trim (pre ++ s ++ post) = trim s.
Proof.
  intros Hpre Hpost. unfold trim, trimEnd.
  rewrite (trimStart_app_spaces pre _ Hpre).
  destruct (trimStart s) as [|c x] eqn:Hs.
  - assert (Hall : forallb is_js_space s = true).
    { destruct (trimStart_split s) as [p [E F]].
      rewrite Hs, app_nil_r in E. rewrite E. exact F. }
    rewrite (trimStart_spaces (s ++ post)); [reflexivity|].
    rewrite forallb_app, Hall, Hpost. reflexivity.
  - rewrite trimStart_app by (rewrite Hs; discriminate).
    rewrite Hs, rev_app_distr.
    rewrite (trimStart_app_spaces (rev post)); [reflexivity|].
    rewrite forallb_rev. exact Hpost.
Qed.

(** X20.  White space around the response body, such as a trailing line
    feed, changes neither the last valid JSON nor, when the chain returns
    one of its values, what the extraction returns. *)
Theorem padding_is_ignored (pre responseText post : jsstring) :
  forallb is_js_space pre = true ->
  forallb is_js_space post = true ->
  lastValidJsonOf (pre ++ responseText ++ post)
  = lastValidJsonOf responseText
  /\ forall x,
       truthy (lastValidJsonOf responseText) = true ->
       extractFrom (lastValidJsonOf responseText) = Normal x ->
       extractResponse (pre ++ responseText ++ post) = x
       /\ extractResponse responseText = x.
Proof.
  intros Hpre Hpost.
  assert (Hlast : lastValidJsonOf (pre ++ responseText ++ post)
                  = lastValidJsonOf responseText).
  { unfold lastValidJsonOf, responseLines.
    rewrite (trim_padding _ _ _ Hpre Hpost). reflexivity. }
  split; [exact Hlast|].
  intros x Hv Hx. unfold extractResponse, tryExtract.
  rewrite Hlast, Hv, Hx. split; reflexivity.
Qed.

Lemma padding_is_ignored_witness :
  extractResponse ([LF; 32] ++ Samples.twoDeltas ++ [13; LF])
  = VString (js "4!").
Proof.
  apply (proj2 (padding_is_ignored [LF; 32] Samples.twoDeltas [13; LF]
                  eq_refl eq_refl)
           (VString (js "4!"))).
  - vm_compute. reflexivity.
  - vm_compute. reflexivity.
Defined.

(** *** The condition of X9 cannot be dropped *)

Example number_is_returned :
  extractResponse Samples.numberDelta = VNumber (Num 5 0).
Proof. vm_compute. reflexivity. Qed.
